(** * kaggle-titanic: the metrics logger and its subplot layout

    A shallow embedding of [src/utils/estimators.py]: the [DataLogger]
    class (metrics table, subplot grid arithmetic, axis selection and the
    plotting loop) and the target inference of [PycaretEstimator.__init__].

    Python objects are modelled by the inductive [value]; exceptions by an
    error result; the mutable logger and the plotting backend by explicit
    state passing in the monad [M]. *)

From Stdlib Require Import ZArith Lia List String.
From stdpp Require Import base list gmap strings sets.
From stdpp Require Import pretty.

Local Open Scope Z_scope.

(** ** Python values *)

(** The objects that can reach the functions modelled here.  A float
    [VFloat m e] stands for [m * 2^e]; [VNaN] is [float('nan')], which
    pandas uses for a missing cell. *)
Inductive value : Type :=
| VInt (z : Z)
| VBool (b : bool)
| VFloat (m e : Z)
| VNaN
| VStr (s : string)
| VNone.

(** [isinstance(v, int)]: [bool] is a subclass of [int]. *)
Definition isinstance_int (v : value) : bool :=
  match v with
  | VInt _ | VBool _ => true
  | _ => false
  end.

(** The integer an [int] instance denotes in comparisons and arithmetic
    ([True] is 1, [False] is 0); [None] for every other object. *)
Definition as_int (v : value) : option Z :=
  match v with
  | VInt z => Some z
  | VBool b => Some (if b then 1 else 0)
  | _ => None
  end.

(** [int(b)] for a Python [bool]. *)
Definition int_of_bool (b : bool) : Z := if b then 1 else 0.

(** ** Exceptions and results *)

Inductive exn : Type :=
| ValueError
| TypeError
| IndexError
| KeyError
| AttributeError
| ZeroDivisionError.

Inductive result (A : Type) : Type :=
| Ok (a : A)
| Raise (e : exn).
Arguments Ok {A} a.
Arguments Raise {A} e.

(** ** Tables *)

(** A Python [dict] with string keys, in insertion order. *)
Definition dict : Type := list (string * value).

Fixpoint dict_get (d : dict) (k : string) : option value :=
  match d with
  | [] => None
  | (k', v) :: d' => if String.eqb k' k then Some v else dict_get d' k
  end.

Definition keys (d : dict) : list string := map fst d.

(** A [pandas.DataFrame]: the column labels and the rows in index order,
    each row being its index label and one cell per column. *)
Record DataFrame : Type := mkDataFrame {
  columns : list string;
  rows : list (string * list value)
}.

(** ** Axes *)

(** An [Axes] object is identified by the grid cell it was created for. *)
Record Axes : Type := mkAxes { ax_row : Z; ax_col : Z }.

(** What [plt.subplots] hands back and what indexing it yields: a single
    [Axes], a 1-D array of them, or a 2-D array (a list of rows). *)
Inductive AxesObj : Type :=
| AxesOne (a : Axes)
| AxesRow (l : list Axes)
| AxesGrid (g : list (list Axes)).

(** ** State *)

(** Calls received by the plotting backend, oldest first. *)
Inductive PlotCall : Type :=
| SetContext (context : string) (font_scale : value)
| Subplots (nrows ncols : Z) (figsize : Z * Z)
| Barplot (x : list string) (y : list value) (ax : Axes)
| AxSet (ax : Axes) (title : string)
| AxSetXTickLabels (ax : Axes) (rotation : Z) (ha : string).

Record DataLogger : Type := mkDataLogger {
  _dataframe : option DataFrame
}.

Record World : Type := mkWorld {
  self : DataLogger;
  backend : list PlotCall
}.

(** A method body: it may read and write the world and either returns or
    raises.  The world reached when an exception is raised is kept, as in
    Python. *)
Definition M (A : Type) : Type := World -> result A * World.

Definition ret {A} (a : A) : M A := fun w => (Ok a, w).
Definition raise {A} (e : exn) : M A := fun w => (Raise e, w).
Definition bind {A B} (c : M A) (k : A -> M B) : M B :=
  fun w => match c w with
           | (Ok a, w') => k a w'
           | (Raise e, w') => (Raise e, w')
           end.
Definition lift {A} (r : result A) : M A := fun w => (r, w).
Definition get_dataframe : M (option DataFrame) :=
  fun w => (Ok (_dataframe (self w)), w).
Definition set_dataframe (d : option DataFrame) : M unit :=
  fun w => (Ok tt, mkWorld (mkDataLogger d) (backend w)).
Definition call_backend (c : PlotCall) : M unit :=
  fun w => (Ok tt, mkWorld (self w) (backend w ++ [c])).

Notation "'let!' x ':=' c 'in' k" := (bind c (fun x => k))
  (at level 10, x pattern, c at level 100, k at level 200).
Notation "c ';;' k" := (bind c (fun _ => k))
  (at level 100, k at level 200, right associativity).

(** ** Integer operators *)

(** [a // b] and [a % b] on Python ints: floor division, the remainder has
    the sign of the divisor, and a zero divisor raises. *)
Definition floordiv (a b : Z) : result Z :=
  if b =? 0 then Raise ZeroDivisionError else Ok (a / b).
Definition pymod (a b : Z) : result Z :=
  if b =? 0 then Raise ZeroDivisionError else Ok (a mod b).

(** ** DataLogger._calc_nrows_ncols *)

(** The guard lets [int] instances through, [bool]s included; the pair
    returned is given by the integers its components denote. *)
Definition _calc_nrows_ncols (nplots max_ncols : value) : M (Z * Z) :=
  match as_int nplots, as_int max_ncols with
  | Some n, Some m =>
      (if (n <=? 0) || (m <=? 0) then raise ValueError else ret tt) ;;
      let ncols := if n <? m then n else m in
      let! q := lift (floordiv n ncols) in
      let! r := lift (pymod n ncols) in
      let nrows := q + int_of_bool (negb (r =? 0)) in
      ret (nrows, ncols)
  | _, _ => raise TypeError
  end.

(** ** Axes arrays *)

Definition len {A} (l : list A) : Z := Z.of_nat (length l).

(** Index normalisation of a numpy axis of length [n]: an index in
    [-n, 0) counts from the end, one outside [-n, n) raises. *)
Definition np_index (n i : Z) : result Z :=
  if (0 <=? i) && (i <? n) then Ok i
  else if (- n <=? i) && (i <? 0) then Ok (i + n)
  else Raise IndexError.

Definition np_item {A} (l : list A) (i : Z) : result A :=
  match np_index (len l) i with
  | Ok k => match l !! Z.to_nat k with
            | Some a => Ok a
            | None => Raise IndexError
            end
  | Raise e => Raise e
  end.

(** [axes[i]]: an [Axes] is not subscriptable; a 1-D array yields an
    element and a 2-D array one of its rows. *)
Definition getitem (axes : AxesObj) (i : Z) : result AxesObj :=
  match axes with
  | AxesOne _ => Raise TypeError
  | AxesRow l =>
      match np_item l i with
      | Ok a => Ok (AxesOne a)
      | Raise e => Raise e
      end
  | AxesGrid g =>
      match np_item g i with
      | Ok r => Ok (AxesRow r)
      | Raise e => Raise e
      end
  end.

(** [axes[i, j]]: only a 2-D array takes two indices. *)
Definition getitem2 (axes : AxesObj) (i j : Z) : result AxesObj :=
  match axes with
  | AxesOne _ => Raise TypeError
  | AxesRow _ => Raise IndexError
  | AxesGrid g =>
      match np_item g i with
      | Ok r =>
          match np_item r j with
          | Ok a => Ok (AxesOne a)
          | Raise e => Raise e
          end
      | Raise e => Raise e
      end
  end.

(** The axes [plt.subplots(nrows, ncols)] creates, with matplotlib's
    default [squeeze=True]: one [Axes] for a 1x1 grid, a 1-D array when
    there is one row or one column, a 2-D array otherwise.  A non-positive
    count is refused by matplotlib. *)
Definition make_axes (nrows ncols : Z) : result AxesObj :=
  if (nrows <=? 0) || (ncols <=? 0) then Raise ValueError
  else if (nrows =? 1) && (ncols =? 1) then Ok (AxesOne (mkAxes 0 0))
  else if nrows =? 1 then Ok (AxesRow (map (mkAxes 0) (seqZ 0 ncols)))
  else if ncols =? 1 then Ok (AxesRow (map (fun r => mkAxes r 0) (seqZ 0 nrows)))
  else Ok (AxesGrid (map (fun r => map (mkAxes r) (seqZ 0 ncols)) (seqZ 0 nrows))).

Definition plt_subplots (nrows ncols : Z) (figsize : Z * Z) : M AxesObj :=
  let! axes := lift (make_axes nrows ncols) in
  call_backend (Subplots nrows ncols figsize) ;;
  ret axes.

(** ** DataLogger._get_ax *)

(** Whatever indexing yields is returned as it is: an [Axes] from a
    matching array, a row when a 2-D array is indexed once. *)
Definition _get_ax (axes : AxesObj) (idx nrows ncols : Z) : M AxesObj :=
  if (nrows >? 1) && (ncols >? 1) then
    let! q := lift (floordiv idx ncols) in
    let! r := lift (pymod idx ncols) in
    lift (getitem2 axes q r)
  else if nrows * ncols =? 1 then
    ret axes
  else
    lift (getitem axes idx).

(** The grid cell of the panel that [show_plots] draws plot [idx] into:
    [_get_ax] applied to the axes that [plt.subplots(nrows, ncols)]
    returned.  An object that is not a single [Axes] has no cell. *)
Definition cell_for_index (nrows ncols idx : Z) : M (Z * Z) :=
  let! axes := lift (make_axes nrows ncols) in
  let! ax := _get_ax axes idx nrows ncols in
  match ax with
  | AxesOne a => ret (ax_row a, ax_col a)
  | _ => raise TypeError
  end.

(** ** DataLogger.__init__ and DataLogger.add *)

Definition DataLogger__init__ : DataLogger := mkDataLogger None.

(** The [dataframe] property. *)
Definition dataframe : M (option DataFrame) := get_dataframe.

(** The row pandas stores for a dict: one cell per column label, looked
    up by key, [NaN] where the dict has no such key. *)
Definition align (cols : list string) (metrics : dict) : list value :=
  map (fun c => default VNaN (dict_get metrics c)) cols.

Definition index (df : DataFrame) : list string := map fst (rows df).

Definition has_label (df : DataFrame) (name : string) : bool :=
  existsb (String.eqb name) (index df).

Definition set_row (name : string) (vals : list value)
    (row : string * list value) : string * list value :=
  if String.eqb name (fst row) then (fst row, vals) else row.

(** [df.loc[name] = metrics] for a dict [metrics]: a row labelled [name]
    is overwritten where it stands; otherwise the frame is enlarged by a
    row at the end, which pandas refuses for a frame without columns. *)
Definition loc_setitem (df : DataFrame) (name : string) (metrics : dict)
    : result DataFrame :=
  let vals := align (columns df) metrics in
  if has_label df name then
    Ok (mkDataFrame (columns df) (map (set_row name vals) (rows df)))
  else
    match columns df with
    | [] => Raise ValueError
    | _ => Ok (mkDataFrame (columns df) (rows df ++ [(name, vals)]))
    end.

(** The empty table is stored before the row is written, so it stays
    when the write raises. *)
Definition add (metrics : dict) (name : string) : M unit :=
  let! df := get_dataframe in
  match df with
  | None => set_dataframe (Some (mkDataFrame (keys metrics) []))
  | Some _ => ret tt
  end ;;
  let! df := get_dataframe in
  match df with
  | None => raise AttributeError
  | Some d =>
      let! d' := lift (loc_setitem d name metrics) in
      set_dataframe (Some d')
  end.

(** ** DataLogger.show_plots *)

Fixpoint for_each {A} (l : list A) (body : A -> M unit) : M unit :=
  match l with
  | [] => ret tt
  | a :: l' => body a ;; for_each l' body
  end.

Definition enumerate {A} (l : list A) : list (Z * A) :=
  zip (seqZ 0 (len l)) l.

Fixpoint position (cols : list string) (col : string) : option nat :=
  match cols with
  | [] => None
  | c :: cols' =>
      if String.eqb c col then Some O else S <$> position cols' col
  end.

(** The cells of column [col], one per row. *)
Definition column_values (df : DataFrame) (col : string) : list value :=
  map (fun row => default VNaN (position (columns df) col ≫= (snd row !!.)))
      (rows df).

(** Each column of the table is drawn into its own panel.  The bar plot
    receives the row labels and the cells of the column; drawing needs an
    [Axes], and an array in its place has no such methods. *)
Definition show_plots (max_ncols : value) (base_size : Z) : M unit :=
  call_backend (SetContext "poster" (VFloat 3 (-1))) ;;
  let! df := get_dataframe in
  let! cols := match df with
               | None => raise AttributeError
               | Some d => ret (columns d)
               end in
  let! plan := _calc_nrows_ncols (VInt (len cols)) max_ncols in
  let nrows := fst plan in
  let ncols := snd plan in
  let! axes :=
    plt_subplots nrows ncols (base_size * nrows, base_size * ncols) in
  for_each (enumerate cols) (fun ic =>
    let! ax_i := _get_ax axes (fst ic) nrows ncols in
    let! df := get_dataframe in
    match df, ax_i with
    | Some d, AxesOne a =>
        call_backend (Barplot (index d) (column_values d (snd ic)) a) ;;
        call_backend (AxSet a (snd ic)) ;;
        call_backend (AxSetXTickLabels a 45 "right")
    | _, _ => raise AttributeError
    end).

(** ** PycaretEstimator.__init__ *)

Definition KEY_TRAIN_DATA : string := "train".
Definition KEY_TEST_DATA : string := "test".
Definition KEY_SAMPLE_SUBMISSION_DATA : string := "sample_submission".

(** The pycaret module handed to the estimator; only [setup] is called
    while constructing. *)
Record PycaretModule : Type := mkPycaretModule {
  setup : DataFrame -> string -> result unit
}.

Record PycaretEstimator : Type := mkPycaretEstimator {
  _mod : PycaretModule;
  train_data : DataFrame;
  test_data : DataFrame;
  sample_submit_data : DataFrame;
  created_target_col : string;
  _metrics_name_col : string;
  _metrics_display_name_col : string;
  target : string
}.

(** [d[k]] on a dict of tables. *)
Definition item (d : gmap string DataFrame) (k : string) : result DataFrame :=
  match d !! k with
  | Some v => Ok v
  | None => Raise KeyError
  end.

(** [list(s)[0]]. *)
Definition first (l : list string) : result string :=
  match l with
  | [] => Raise IndexError
  | c :: _ => Ok c
  end.

(** [set(train.columns) - set(test.columns)].  The order in which Python
    lists a set is unspecified, and so is the order of [elements]. *)
Definition column_difference (train test : DataFrame) : gset string :=
  list_to_set (columns train) ∖ list_to_set (columns test).

Definition PycaretEstimator__init__ (md : PycaretModule)
    (input_data : gmap string DataFrame)
    (created_target_col metrics_name_col metrics_display_name_col : string)
    : result PycaretEstimator :=
  match item input_data KEY_TRAIN_DATA with
  | Raise e => Raise e
  | Ok train =>
  match item input_data KEY_TEST_DATA with
  | Raise e => Raise e
  | Ok test =>
  match item input_data KEY_SAMPLE_SUBMISSION_DATA with
  | Raise e => Raise e
  | Ok sample =>
  match first (elements (column_difference train test)) with
  | Raise e => Raise e
  | Ok tgt =>
  match setup md train tgt with
  | Raise e => Raise e
  | Ok _ =>
      Ok (mkPycaretEstimator md train test sample created_target_col
            metrics_name_col metrics_display_name_col tgt)
  end end end end end.

(** ** Error kinds of the specification *)

(** The specification names four error kinds.  The planner signals its
    two precondition violations with [ValueError] and [TypeError], and an
    index that an axes array cannot resolve surfaces as numpy's
    [IndexError]; no exception class of the program is dedicated to an
    empty log or to a schema mismatch. *)
Inductive error_kind : Type :=
| InvalidArgument
| IndexOutOfRange
| EmptyLogError
| SchemaMismatch.

Definition kind_of (e : exn) : option error_kind :=
  match e with
  | ValueError | TypeError => Some InvalidArgument
  | IndexError => Some IndexOutOfRange
  | _ => None
  end.

Definition fails_with {A} (r : result A * World) (k : error_kind) : Prop :=
  exists e, fst r = Raise e /\ kind_of e = Some k.

Definition not_integer (v : value) : Prop := isinstance_int v = false.

Definition non_positive (v : value) : Prop :=
  match v with
  | VInt z => z <= 0
  | VBool b => b = false
  | VFloat m _ => m <= 0
  | _ => False
  end.

(** ** The specification's cell mapping *)

(** [cell_for_index] as the specification words it, with one branch per
    grid shape; it is compared with [_get_ax] below. *)
Definition spec_cell_for_index (rows columns index : Z) : Z * Z :=
  if (rows =? 1) && (columns =? 1) then (0, 0)
  else if rows =? 1 then (0, index)
  else if columns =? 1 then (index, 0)
  else (index / columns, index mod columns).

(** ** Observations on the log *)

(** The table of a logger as a sequence of [(name, cells)] entries; a
    logger that was never written to has none. *)
Definition entries (lg : DataLogger) : list (string * list value) :=
  match _dataframe lg with
  | Some d => rows d
  | None => []
  end.


(** One call [add(metrics, name)] of a sequence of calls. *)
Definition add_call (c : dict * string) : M unit := add (fst c) (snd c).

(** The distinct names of a sequence, each at its first occurrence. *)
Definition note_name (seen : list string) (name : string) : list string :=
  if bool_decide (name ∈ seen) then seen else seen ++ [name].

Definition distinct_in_order (l : list string) : list string :=
  fold_left note_name l [].

(** The loggers a program can build: a fresh one, and whatever a call of
    [add] leaves behind, whether it returned or raised. *)
Inductive reachable : DataLogger -> Prop :=
| reach_init : reachable DataLogger__init__
| reach_add lg metrics name bk :
    reachable lg ->
    reachable (self (snd (add metrics name (mkWorld lg bk)))).

(** A computation that leaves the logger as it found it. *)
Definition read_only {A} (c : M A) : Prop :=
  forall w, self (snd (c w)) = self w.

(** ** Observations on the plotting backend *)



(** A table is rectangular when every row has one cell per column. *)
Definition rectangular (d : DataFrame) : Prop :=
  Forall (fun r => length (snd r) = length (columns d)) (rows d).

(** ** PycaretEstimator._create_submit_data *)

(** The cells of a row after the columns labelled [col] are set to [v]. *)
Fixpoint set_cells (cols : list string) (col : string) (v : value)
    (cells : list value) : list value :=
  match cols, cells with
  | c :: cols', x :: cells' =>
      (if String.eqb c col then v else x) :: set_cells cols' col v cells'
  | _, _ => cells
  end.

(** [df.loc[:, col] = v] for a scalar [v]: every cell under a column
    labelled [col] becomes [v]; a label that is no column yet is added as
    the last column, which pandas refuses for a frame without rows. *)
Definition loc_set_column (df : DataFrame) (col : string) (v : value)
    : result DataFrame :=
  if existsb (String.eqb col) (columns df) then
    Ok (mkDataFrame (columns df)
          (map (fun r => (fst r, set_cells (columns df) col v (snd r))) (rows df)))
  else
    match rows df with
    | [] => Raise ValueError
    | _ =>
        Ok (mkDataFrame (columns df ++ [col])
              (map (fun r => (fst r, snd r ++ [v])) (rows df)))
    end.

(** The copy of the sample table is a value of its own; the estimator's
    table is not written to. *)
Definition _create_submit_data (est : PycaretEstimator) : result DataFrame :=
  let df_submit := sample_submit_data est in
  loc_set_column df_submit (target est) VNaN.

(** ** DataImporter *)

Record DataImporter : Type := mkDataImporter {
  _train_file_path : string;
  _test_file_path : string;
  _sample_submission_file_path : string;
  _index_col : value
}.

Definition DataImporter__init__
    (input_dir train_file test_file sample_submission_file : string)
    (index_col : value) : DataImporter :=
  mkDataImporter (input_dir +:+ train_file) (input_dir +:+ test_file)
    (input_dir +:+ sample_submission_file) index_col.

(** The dict of paths, looked up by key. *)
Definition get_file_path (importer : DataImporter) : gmap string string :=
  <[KEY_TRAIN_DATA := _train_file_path importer]>
    (<[KEY_TEST_DATA := _test_file_path importer]>
       (<[KEY_SAMPLE_SUBMISSION_DATA := _sample_submission_file_path importer]> ∅)).

(** What reading files yields: a value, or the error of the file system
    or of the parser. *)
Inductive outcome (E A : Type) : Type :=
| Returned (a : A)
| Failed (e : E).
Arguments Returned {E A} a.
Arguments Failed {E A} e.

(** [df.shape]: the numbers of rows and of columns. *)
Definition shape (df : DataFrame) : Z * Z := (len (rows df), len (columns df)).

Section Read.
Context {E : Type}.

(** [pd.read_csv(path, index_col=index_col)] on the files at hand. *)
Variable read_csv : string -> value -> outcome E DataFrame.

(** The lines printed, oldest first, and the dict of tables. *)
Definition read (importer : DataImporter)
    : list string * outcome E (gmap string DataFrame) :=
  match read_csv (_train_file_path importer) (_index_col importer) with
  | Failed e => ([], Failed e)
  | Returned df_train =>
      let line_train :=
        "Data for Modeling: " +:+ pretty (fst (shape df_train)) +:+ " records, "
          +:+ pretty (snd (shape df_train)) +:+ " features" in
      match read_csv (_test_file_path importer) (_index_col importer) with
      | Failed e => ([line_train], Failed e)
      | Returned df_test =>
          let line_test :=
            "Unseen Data for Predictions: " +:+ pretty (fst (shape df_test))
              +:+ " records, " +:+ pretty (snd (shape df_test)) +:+ " features" in
          match read_csv (_sample_submission_file_path importer)
                         (_index_col importer) with
          | Failed e => ([line_train; line_test], Failed e)
          | Returned df_sample_submission =>
              ([line_train; line_test],
               Returned
                 (<[KEY_TRAIN_DATA := df_train]>
                    (<[KEY_TEST_DATA := df_test]>
                       (<[KEY_SAMPLE_SUBMISSION_DATA := df_sample_submission]> ∅))))
          end
      end
  end.
End Read.

(** * Properties *)

(** ** The layout planner *)

Example plan_7_3 w : _calc_nrows_ncols (VInt 7) (VInt 3) w = (Ok (3, 3), w).
Proof. reflexivity. Qed.

Example plan_5_10 w : _calc_nrows_ncols (VInt 5) (VInt 10) w = (Ok (1, 5), w).
Proof. reflexivity. Qed.

Example plan_1_1 w : _calc_nrows_ncols (VInt 1) (VInt 1) w = (Ok (1, 1), w).
Proof. reflexivity. Qed.

Example plan_True_3 w : _calc_nrows_ncols (VBool true) (VInt 3) w = (Ok (1, 1), w).
Proof. reflexivity. Qed.

Lemma as_int_isinstance v : isinstance_int v = true <-> exists n, as_int v = Some n.
Proof.
  destruct v; simpl; split; intros H; eauto; try discriminate;
    destruct H as [n H]; discriminate.
Qed.

Lemma not_integer_as_int v : not_integer v <-> as_int v = None.
Proof. unfold not_integer. destruct v; simpl; split; congruence. Qed.

(** The value returned on positive ints, in closed form. *)
Lemma calc_positive a b n m w :
  as_int a = Some n -> as_int b = Some m -> 0 < n -> 0 < m ->
  _calc_nrows_ncols a b w =
    (Ok (n / Z.min n m + int_of_bool (negb (n mod Z.min n m =? 0)), Z.min n m), w).
Proof.
  intros Ha Hb Hn Hm. unfold _calc_nrows_ncols. rewrite Ha, Hb.
  assert (Hmin : (if n <? m then n else m) = Z.min n m).
  { destruct (Z.ltb_spec n m); lia. }
  rewrite Hmin.
  assert (Hc : 0 < Z.min n m) by lia.
  unfold bind, lift, ret, raise, floordiv, pymod.
  replace ((n <=? 0) || (m <=? 0))%bool with false
    by (symmetry; apply orb_false_iff; split; apply Z.leb_gt; lia).
  replace (Z.min n m =? 0) with false by (symmetry; apply Z.eqb_neq; lia).
  reflexivity.
Qed.

(** [q + (r != 0)] is the ceiling of [n / c]. *)
Lemma ceil_bounds n c :
  0 < c ->
  let r := n / c + int_of_bool (negb (n mod c =? 0)) in
  (r - 1) * c < n <= r * c.
Proof.
  intros Hc r. subst r.
  pose proof (Z.div_mod n c ltac:(lia)) as Hdm.
  pose proof (Z.mod_pos_bound n c Hc) as Hb.
  destruct (Z.eqb_spec (n mod c) 0) as [E|E]; simpl int_of_bool; nia.
Qed.

Lemma calc_not_int a b w :
  not_integer a \/ not_integer b ->
  _calc_nrows_ncols a b w = (Raise TypeError, w).
Proof.
  rewrite !not_integer_as_int. unfold _calc_nrows_ncols.
  intros [H|H]; rewrite H; [reflexivity|]. destruct (as_int a); reflexivity.
Qed.

Lemma calc_non_positive a b n m w :
  as_int a = Some n -> as_int b = Some m -> n <= 0 \/ m <= 0 ->
  _calc_nrows_ncols a b w = (Raise ValueError, w).
Proof.
  intros Ha Hb H. unfold _calc_nrows_ncols. rewrite Ha, Hb.
  unfold bind, raise.
  replace ((n <=? 0) || (m <=? 0))%bool with true; [reflexivity|].
  symmetry. apply orb_true_iff. rewrite !Z.leb_le. exact H.
Qed.

(** C1: on positive ints [_calc_nrows_ncols] returns
    [columns = min(plot_count, max_columns)] and
    [rows = plot_count // columns + (plot_count % columns != 0)], which is
    the ceiling of [plot_count / columns]; hence
    [rows * columns >= plot_count], [columns <= max_columns] and
    [columns <= plot_count]. *)
Theorem calc_nrows_ncols_positive (a b : value) (n m : Z) (w : World) :
  as_int a = Some n -> as_int b = Some m -> 0 < n -> 0 < m ->
  exists nrows ncols,
    _calc_nrows_ncols a b w = (Ok (nrows, ncols), w) /\
    ncols = Z.min n m /\
    nrows = n / ncols + (if n mod ncols =? 0 then 0 else 1) /\
    (nrows - 1) * ncols < n <= nrows * ncols /\
    nrows * ncols >= n /\ ncols <= m /\ ncols <= n.
Proof.
  intros Ha Hb Hn Hm.
  exists (n / Z.min n m + int_of_bool (negb (n mod Z.min n m =? 0))), (Z.min n m).
  split; [now apply calc_positive|].
  split; [reflexivity|].
  split; [destruct (n mod Z.min n m =? 0); reflexivity|].
  pose proof (ceil_bounds n (Z.min n m) ltac:(lia)) as Hceil. simpl in Hceil.
  repeat split; lia.
Qed.

Lemma calc_nrows_ncols_positive_witness :
  exists nrows ncols,
    _calc_nrows_ncols (VInt 7) (VInt 3) (mkWorld DataLogger__init__ []) =
      (Ok (nrows, ncols), mkWorld DataLogger__init__ []) /\
    ncols = Z.min 7 3 /\
    nrows = 7 / ncols + (if 7 mod ncols =? 0 then 0 else 1) /\
    (nrows - 1) * ncols < 7 <= nrows * ncols /\
    nrows * ncols >= 7 /\ ncols <= 3 /\ ncols <= 7.
Proof.
  apply (calc_nrows_ncols_positive (VInt 7) (VInt 3) 7 3); [reflexivity | reflexivity | lia | lia].
Defined.

(** C5: a call of the planner in which [plot_count] or [max_columns] is
    non-positive or not an integer fails with an exception of kind
    [InvalidArgument]; so do [plan(0, 3)] and [plan(3, 0)]. *)
Theorem calc_invalid_argument (a b : value) (w : World) :
  non_positive a \/ not_integer a \/ non_positive b \/ not_integer b ->
  fails_with (_calc_nrows_ncols a b w) InvalidArgument /\
  fails_with (_calc_nrows_ncols (VInt 0) (VInt 3) w) InvalidArgument /\
  fails_with (_calc_nrows_ncols (VInt 3) (VInt 0) w) InvalidArgument.
Proof.
  intros H. split; [|split; exists ValueError; split; reflexivity].
  destruct (as_int a) as [n|] eqn:Ha; cycle 1.
  { exists TypeError. rewrite calc_not_int; [split; reflexivity|].
    left. now apply not_integer_as_int. }
  destruct (as_int b) as [m|] eqn:Hb; cycle 1.
  { exists TypeError. rewrite calc_not_int; [split; reflexivity|].
    right. now apply not_integer_as_int. }
  exists ValueError. rewrite (calc_non_positive a b n m); [split; reflexivity|assumption|assumption|].
  destruct H as [H|[H|[H|H]]].
  - left. destruct a; simpl in *; try contradiction; try discriminate;
      inversion Ha; subst; [lia | lia].
  - apply not_integer_as_int in H. congruence.
  - right. destruct b; simpl in *; try contradiction; try discriminate;
      inversion Hb; subst; [lia | lia].
  - apply not_integer_as_int in H. congruence.
Qed.

Lemma calc_invalid_argument_witness :
  fails_with (_calc_nrows_ncols (VFloat (-3) (-1)) (VInt 3) (mkWorld DataLogger__init__ [])) InvalidArgument /\
  fails_with (_calc_nrows_ncols (VInt 0) (VInt 3) (mkWorld DataLogger__init__ [])) InvalidArgument /\
  fails_with (_calc_nrows_ncols (VInt 3) (VInt 0) (mkWorld DataLogger__init__ [])) InvalidArgument.
Proof.
  apply (calc_invalid_argument (VFloat (-3) (-1)) (VInt 3)).
  left. simpl. lia.
Defined.

(** C9: the integer-type check comes first: the planner raises
    [TypeError] exactly when one of its arguments is not an [int],
    whatever the sign of either; it raises [ValueError] exactly when both
    are ints and one of them is [<= 0]. *)
Theorem calc_type_check_first (a b : value) (w : World) :
  (fst (_calc_nrows_ncols a b w) = Raise TypeError <->
   not_integer a \/ not_integer b) /\
  (fst (_calc_nrows_ncols a b w) = Raise ValueError <->
   exists n m, as_int a = Some n /\ as_int b = Some m /\ (n <= 0 \/ m <= 0)).
Proof.
  destruct (as_int a) as [n|] eqn:Ha; cycle 1.
  { rewrite calc_not_int by (left; now apply not_integer_as_int). simpl. split.
    - split; [intros _; left; now apply not_integer_as_int|reflexivity].
    - split; [discriminate|]. intros (? & ? & ? & _). discriminate. }
  destruct (as_int b) as [m|] eqn:Hb; cycle 1.
  { rewrite calc_not_int by (right; now apply not_integer_as_int). simpl. split.
    - split; [intros _; right; now apply not_integer_as_int|reflexivity].
    - split; [discriminate|]. intros (? & ? & _ & ? & _). discriminate. }
  assert (Hint : ~ (not_integer a \/ not_integer b)).
  { rewrite !not_integer_as_int. intros [?|?]; congruence. }
  destruct (Z_le_gt_dec n 0) as [Hn|Hn]; [|destruct (Z_le_gt_dec m 0) as [Hm|Hm]].
  - rewrite (calc_non_positive a b n m) by auto. simpl. split.
    + split; [discriminate|tauto].
    + split; [|reflexivity]. intros _. exists n, m. auto.
  - rewrite (calc_non_positive a b n m) by auto. simpl. split.
    + split; [discriminate|tauto].
    + split; [|reflexivity]. intros _. exists n, m. auto.
  - rewrite (calc_positive a b n m) by (assumption || lia). simpl. split.
    + split; [discriminate|tauto].
    + split; [discriminate|].
      intros (n' & m' & Hn' & Hm' & H). inversion Hn'; inversion Hm'; subst. lia.
Qed.

Example type_error_despite_non_positive w :
  _calc_nrows_ncols (VInt 0) (VStr "3") w = (Raise TypeError, w) /\
  _calc_nrows_ncols (VFloat (-3) (-1)) (VInt (-2)) w = (Raise TypeError, w).
Proof. split; reflexivity. Qed.

(** ** Axis selection *)

Lemma np_index_range n i k : np_index n i = Ok k -> 0 <= k < n.
Proof.
  unfold np_index. intros H.
  destruct (Z.leb_spec 0 i), (Z.ltb_spec i n); simpl in H;
    try (inversion H; subst; lia);
    destruct (Z.leb_spec (- n) i), (Z.ltb_spec i 0); simpl in H;
    try discriminate; inversion H; subst; lia.
Qed.

Lemma np_index_valid n i : 0 <= i < n -> np_index n i = Ok i.
Proof.
  intros H. unfold np_index.
  destruct (Z.leb_spec 0 i), (Z.ltb_spec i n); simpl; try lia. reflexivity.
Qed.

Lemma np_index_fails n i :
  0 <= n -> (np_index n i = Raise IndexError <-> ~ (- n <= i < n)).
Proof.
  intros Hn. unfold np_index.
  destruct (Z.leb_spec 0 i), (Z.ltb_spec i n); simpl;
    try (split; [discriminate | lia]);
    destruct (Z.leb_spec (- n) i), (Z.ltb_spec i 0); simpl;
    try (split; [discriminate | lia]); split; (reflexivity || lia).
Qed.

Lemma np_index_exn n i e : np_index n i = Raise e -> e = IndexError.
Proof.
  unfold np_index.
  destruct ((0 <=? i) && (i <? n))%bool; [discriminate|].
  destruct ((- n <=? i) && (i <? 0))%bool; [discriminate|]. congruence.
Qed.

(** Indexing an array whose [k]-th element is [f k]. *)
Lemma np_item_tabulate {A} (f : Z -> A) n i :
  0 <= n ->
  np_item (map f (seqZ 0 n)) i =
    match np_index n i with
    | Ok k => Ok (f k)
    | Raise e => Raise e
    end.
Proof.
  intros Hn. unfold np_item, len.
  rewrite length_map, length_seqZ, Z2Nat.id by lia.
  destruct (np_index n i) as [k|e] eqn:Hk; [|reflexivity].
  apply np_index_range in Hk.
  change (map f (seqZ 0 n)) with (f <$> seqZ 0 n).
  rewrite list_lookup_fmap, lookup_seqZ_lt by lia. simpl.
  f_equal. f_equal. lia.
Qed.

(** [cell_for_index] in closed form, shape by shape. *)
Lemma cell_for_index_closed nrows ncols idx w :
  0 < nrows -> 0 < ncols ->
  cell_for_index nrows ncols idx w =
    (if (nrows >? 1) && (ncols >? 1) then
       match np_index nrows (idx / ncols) with
       | Ok r => Ok (r, idx mod ncols)
       | Raise e => Raise e
       end
     else if nrows * ncols =? 1 then Ok (0, 0)
     else if nrows =? 1 then
       match np_index ncols idx with
       | Ok c => Ok (0, c)
       | Raise e => Raise e
       end
     else
       match np_index nrows idx with
       | Ok r => Ok (r, 0)
       | Raise e => Raise e
       end, w).
Proof.
  intros Hr Hc. unfold cell_for_index, make_axes, _get_ax, bind, lift, ret, raise.
  replace ((nrows <=? 0) || (ncols <=? 0))%bool with false
    by (symmetry; apply orb_false_iff; split; apply Z.leb_gt; lia).
  rewrite !Z.gtb_ltb.
  destruct (Z.eqb_spec nrows 1) as [R1|R1], (Z.eqb_spec ncols 1) as [C1|C1];
    simpl andb.
  - subst. reflexivity.
  - subst nrows. simpl andb. cbv iota.
    replace (1 * ncols =? 1) with false by (symmetry; apply Z.eqb_neq; lia).
    unfold getitem. rewrite np_item_tabulate by lia.
    destruct (np_index ncols idx); reflexivity.
  - subst ncols. replace (1 <? 1) with false by reflexivity.
    rewrite andb_false_r.
    replace (nrows * 1 =? 1) with false by (symmetry; apply Z.eqb_neq; lia).
    unfold getitem. rewrite np_item_tabulate by lia.
    destruct (np_index nrows idx); reflexivity.
  - replace (1 <? nrows) with true by (symmetry; apply Z.ltb_lt; lia).
    replace (1 <? ncols) with true by (symmetry; apply Z.ltb_lt; lia).
    simpl andb. cbv iota. unfold floordiv, pymod.
    replace (ncols =? 0) with false by (symmetry; apply Z.eqb_neq; lia).
    unfold getitem2.
    rewrite (np_item_tabulate (fun r => map (mkAxes r) (seqZ 0 ncols))) by lia.
    destruct (np_index nrows (idx / ncols)) as [r|e]; [|reflexivity].
    rewrite np_item_tabulate by lia.
    rewrite np_index_valid by (apply Z.mod_pos_bound; lia). reflexivity.
Qed.

Example cells_7_3 w :
  map (fun i => fst (cell_for_index 3 3 i w)) (seqZ 0 7) =
    [Ok (0, 0); Ok (0, 1); Ok (0, 2); Ok (1, 0); Ok (1, 1); Ok (1, 2); Ok (2, 0)].
Proof. reflexivity. Qed.

Example cells_5_10 w :
  map (fun i => fst (cell_for_index 1 5 i w)) (seqZ 0 5) =
    [Ok (0, 0); Ok (0, 1); Ok (0, 2); Ok (0, 3); Ok (0, 4)].
Proof. reflexivity. Qed.

Example cell_1_1 w : cell_for_index 1 1 0 w = (Ok (0, 0), w).
Proof. reflexivity. Qed.

(** Every index that addresses a cell of the grid is mapped in row-major
    order, whatever the shape of the axes object. *)
Lemma cell_for_index_valid nrows ncols idx w :
  0 < nrows -> 0 < ncols -> 0 <= idx < nrows * ncols ->
  cell_for_index nrows ncols idx w = (Ok (idx / ncols, idx mod ncols), w).
Proof.
  intros Hr Hc Hi. rewrite cell_for_index_closed by assumption.
  pose proof (Z.div_mod idx ncols ltac:(lia)) as Hdm.
  pose proof (Z.mod_pos_bound idx ncols Hc) as Hb.
  rewrite !Z.gtb_ltb.
  destruct (Z.ltb_spec 1 nrows), (Z.ltb_spec 1 ncols); simpl andb; cbv iota.
  - rewrite np_index_valid by nia. reflexivity.
  - assert (ncols = 1) by lia. subst ncols.
    replace (nrows * 1 =? 1) with false by (symmetry; apply Z.eqb_neq; lia).
    replace (nrows =? 1) with false by (symmetry; apply Z.eqb_neq; lia).
    rewrite np_index_valid by lia.
    rewrite Z.div_1_r, Z.mod_1_r. reflexivity.
  - assert (nrows = 1) by lia. subst nrows.
    replace (1 * ncols =? 1) with false by (symmetry; apply Z.eqb_neq; lia).
    simpl Z.eqb. cbv iota. rewrite np_index_valid by lia.
    rewrite Z.div_small, Z.mod_small by lia. reflexivity.
  - assert (nrows = 1) by lia. assert (ncols = 1) by lia. subst.
    assert (idx = 0) by lia. subst. reflexivity.
Qed.

(** What a successful call of the planner tells about its result. *)
Lemma calc_ok_inv a b w nrows ncols w' :
  _calc_nrows_ncols a b w = (Ok (nrows, ncols), w') ->
  exists n m,
    as_int a = Some n /\ as_int b = Some m /\ 0 < n /\ 0 < m /\ w' = w /\
    ncols = Z.min n m /\ 0 < nrows /\ 0 < ncols /\
    (nrows - 1) * ncols < n <= nrows * ncols.
Proof.
  intros H.
  destruct (as_int a) as [n|] eqn:Ha; cycle 1.
  { rewrite calc_not_int in H by (left; now apply not_integer_as_int). discriminate. }
  destruct (as_int b) as [m|] eqn:Hb; cycle 1.
  { rewrite calc_not_int in H by (right; now apply not_integer_as_int). discriminate. }
  destruct (Z.le_gt_cases n 0) as [Hn|Hn].
  { rewrite (calc_non_positive a b n m) in H by auto. discriminate. }
  destruct (Z.le_gt_cases m 0) as [Hm|Hm].
  { rewrite (calc_non_positive a b n m) in H by auto. discriminate. }
  rewrite (calc_positive a b n m) in H by (assumption || lia).
  inversion H; subst. exists n, m.
  pose proof (ceil_bounds n (Z.min n m) ltac:(lia)) as Hceil. simpl in Hceil.
  repeat split; try assumption; try reflexivity; try lia; nia.
Qed.

(** C2: on a plan with room for [plot_count] plots and a valid index,
    [_get_ax] selects the panel the specification's [cell_for_index]
    names: [(index // columns, index % columns)] when [rows > 1] and
    [columns > 1], [(0, index)] when there is one row and several
    columns, [(index, 0)] when there is one column and several rows, and
    [(0, 0)] on the 1x1 grid. *)
Theorem cell_for_index_row_major (nplots nrows ncols idx : Z) (w : World) :
  0 < nrows -> 0 < ncols -> nplots <= nrows * ncols -> 0 <= idx < nplots ->
  cell_for_index nrows ncols idx w =
    (Ok (spec_cell_for_index nrows ncols idx), w).
Proof.
  intros Hr Hc Hn Hi.
  rewrite cell_for_index_valid by lia. unfold spec_cell_for_index.
  destruct (Z.eqb_spec nrows 1), (Z.eqb_spec ncols 1); simpl andb; cbv iota;
    subst.
  - assert (idx = 0) by lia. subst. reflexivity.
  - rewrite Z.div_small, Z.mod_small by lia. reflexivity.
  - rewrite Z.div_1_r, Z.mod_1_r. reflexivity.
  - reflexivity.
Qed.

Lemma cell_for_index_row_major_witness :
  cell_for_index 3 3 6 (mkWorld DataLogger__init__ []) =
    (Ok (spec_cell_for_index 3 3 6), mkWorld DataLogger__init__ []).
Proof.
  apply (cell_for_index_row_major 7 3 3 6); lia.
Defined.

(** C3: on the plan built from positive [plot_count] and [max_columns],
    every index in [[0, plot_count)] is mapped to a cell inside
    [[0, rows) x [0, columns)], distinct indices are mapped to distinct
    cells, and the cells of all indices form a duplicate-free list of
    length [plot_count]. *)
Theorem cell_for_index_injective (a b : value) (n nrows ncols : Z) (w : World) :
  as_int a = Some n ->
  _calc_nrows_ncols a b w = (Ok (nrows, ncols), w) ->
  (forall idx, 0 <= idx < n ->
     exists r c, cell_for_index nrows ncols idx w = (Ok (r, c), w) /\
                 0 <= r < nrows /\ 0 <= c < ncols) /\
  (forall i j, 0 <= i < n -> 0 <= j < n ->
     fst (cell_for_index nrows ncols i w) = fst (cell_for_index nrows ncols j w) ->
     i = j) /\
  NoDup (map (fun i => fst (cell_for_index nrows ncols i w)) (seqZ 0 n)) /\
  length (map (fun i => fst (cell_for_index nrows ncols i w)) (seqZ 0 n)) = Z.to_nat n.
Proof.
  intros Ha Hplan.
  apply calc_ok_inv in Hplan as (n' & m & Ha' & Hb & Hn & Hm & _ & Hmin & Hr & Hc & Hceil).
  assert (n' = n) by congruence. subst n'.
  assert (Hinj : forall i j, 0 <= i < n -> 0 <= j < n ->
     fst (cell_for_index nrows ncols i w) = fst (cell_for_index nrows ncols j w) ->
     i = j).
  { intros i j Hi Hj. rewrite !cell_for_index_valid by lia. simpl.
    intros E. inversion E as [[Eq Em]].
    rewrite (Z.div_mod i ncols), (Z.div_mod j ncols) by lia. congruence. }
  split; [|split; [exact Hinj|split]].
  - intros idx Hi. exists (idx / ncols), (idx mod ncols).
    rewrite cell_for_index_valid by lia. split; [reflexivity|].
    pose proof (Z.div_mod idx ncols ltac:(lia)).
    pose proof (Z.mod_pos_bound idx ncols Hc).
    split; [|lia]. split; [apply Z.div_pos; lia|].
    apply Z.div_lt_upper_bound; lia.
  - change (NoDup ((fun i => fst (cell_for_index nrows ncols i w)) <$> seqZ 0 n)).
    apply NoDup_fmap_2_strong; [|apply NoDup_seqZ].
    intros i j Hi Hj. apply elem_of_seqZ in Hi, Hj. apply Hinj; lia.
  - rewrite length_map, length_seqZ. reflexivity.
Qed.

Lemma cell_for_index_injective_witness :
  (forall idx, 0 <= idx < 7 ->
     exists r c, cell_for_index 3 3 idx (mkWorld DataLogger__init__ []) =
                   (Ok (r, c), mkWorld DataLogger__init__ []) /\
                 0 <= r < 3 /\ 0 <= c < 3) /\
  (forall i j, 0 <= i < 7 -> 0 <= j < 7 ->
     fst (cell_for_index 3 3 i (mkWorld DataLogger__init__ [])) =
     fst (cell_for_index 3 3 j (mkWorld DataLogger__init__ [])) ->
     i = j) /\
  NoDup (map (fun i => fst (cell_for_index 3 3 i (mkWorld DataLogger__init__ [])))
             (seqZ 0 7)) /\
  length (map (fun i => fst (cell_for_index 3 3 i (mkWorld DataLogger__init__ [])))
              (seqZ 0 7)) = Z.to_nat 7.
Proof.
  apply (cell_for_index_injective (VInt 7) (VInt 3) 7 3 3); reflexivity.
Defined.

(** An index beyond the plots but inside the grid is accepted. *)
Example trailing_cell w : cell_for_index 2 3 5 w = (Ok (1, 2), w).
Proof. reflexivity. Qed.

Example negative_index_wraps w : cell_for_index 2 3 (-1) w = (Ok (1, 2), w).
Proof. reflexivity. Qed.

Example single_panel_any_index w : cell_for_index 1 1 5 w = (Ok (0, 0), w).
Proof. reflexivity. Qed.

(** The only exception [cell_for_index] raises on a grid is [IndexError],
    and it does so exactly outside [[-rows*columns, rows*columns)] on a
    grid of more than one cell. *)
Lemma cell_for_index_fails nrows ncols idx w :
  0 < nrows -> 0 < ncols ->
  (forall e, fst (cell_for_index nrows ncols idx w) = Raise e -> e = IndexError) /\
  (fst (cell_for_index nrows ncols idx w) = Raise IndexError <->
   nrows * ncols <> 1 /\ ~ (- (nrows * ncols) <= idx < nrows * ncols)).
Proof.
  intros Hr Hc. rewrite cell_for_index_closed by assumption. simpl fst.
  pose proof (Z.div_mod idx ncols ltac:(lia)) as Hdm.
  pose proof (Z.mod_pos_bound idx ncols Hc) as Hb.
  rewrite !Z.gtb_ltb.
  destruct (Z.ltb_spec 1 nrows), (Z.ltb_spec 1 ncols); simpl andb; cbv iota.
  - pose proof (np_index_fails nrows (idx / ncols) ltac:(lia)) as Hf.
    destruct (np_index nrows (idx / ncols)) as [k|e] eqn:Hk.
    + split; [discriminate|]. split; [discriminate|].
      intros [_ Hout]. exfalso. apply np_index_range in Hk as Hk'.
      assert (Hne : Ok k <> @Raise Z IndexError) by discriminate.
      rewrite Hf in Hne. apply Hne. intros Hin. apply Hout. nia.
    + apply np_index_exn in Hk as He. subst e.
      split; [congruence|]. split; [|reflexivity].
      intros _. split; [nia|]. intros Hin.
      apply (proj1 Hf eq_refl). nia.
  - assert (ncols = 1) by lia. subst ncols.
    replace (nrows * 1 =? 1) with false by (symmetry; apply Z.eqb_neq; lia).
    replace (nrows =? 1) with false by (symmetry; apply Z.eqb_neq; lia).
    pose proof (np_index_fails nrows idx ltac:(lia)) as Hf.
    destruct (np_index nrows idx) as [k|e] eqn:Hk.
    + split; [discriminate|]. split; [discriminate|].
      intros [_ Hout]. exfalso.
      assert (Hne : Ok k <> @Raise Z IndexError) by discriminate.
      rewrite Hf in Hne. apply Hne. lia.
    + apply np_index_exn in Hk as He. subst e.
      split; [congruence|]. split; [|reflexivity].
      intros _. split; [lia|]. intros Hin. apply (proj1 Hf eq_refl). lia.
  - assert (nrows = 1) by lia. subst nrows.
    replace (1 * ncols =? 1) with false by (symmetry; apply Z.eqb_neq; lia).
    simpl Z.eqb. cbv iota.
    pose proof (np_index_fails ncols idx ltac:(lia)) as Hf.
    destruct (np_index ncols idx) as [k|e] eqn:Hk.
    + split; [discriminate|]. split; [discriminate|].
      intros [_ Hout]. exfalso.
      assert (Hne : Ok k <> @Raise Z IndexError) by discriminate.
      rewrite Hf in Hne. apply Hne. lia.
    + apply np_index_exn in Hk as He. subst e.
      split; [congruence|]. split; [|reflexivity].
      intros _. split; [lia|]. intros Hin. apply (proj1 Hf eq_refl). lia.
  - assert (nrows = 1) by lia. assert (ncols = 1) by lia. subst. simpl.
    split; [discriminate|]. split; [discriminate|]. intros [Hne _]. lia.
Qed.

(** C4, as the specification states it, fails: on the plan built from
    [plot_count = 5] and [max_columns = 3] the index [5] is outside
    [[0, 5)], yet [_get_ax] returns the unused sixth panel, cell [(1, 2)]. *)
Lemma out_of_range_index_accepted :
  _calc_nrows_ncols (VInt 5) (VInt 3) (mkWorld DataLogger__init__ []) =
    (Ok (2, 3), mkWorld DataLogger__init__ []) /\
  ~ (0 <= 5 < 5) /\
  cell_for_index 2 3 5 (mkWorld DataLogger__init__ []) =
    (Ok (1, 2), mkWorld DataLogger__init__ []) /\
  ~ fails_with (cell_for_index 2 3 5 (mkWorld DataLogger__init__ [])) IndexOutOfRange.
Proof.
  split; [reflexivity|]. split; [lia|]. split; [reflexivity|].
  intros [e [H _]]. discriminate H.
Qed.

(** C4, amended: on the plan built from positive [plot_count] and
    [max_columns], [_get_ax] fails, with [IndexError] and nothing else,
    exactly when the grid has more than one cell and the index lies
    outside [[-rows*columns, rows*columns)]; index [5] on the plan built
    from [plot_count = 5] and [max_columns = 10] fails so. *)
Theorem cell_for_index_out_of_grid (a b : value) (nrows ncols idx : Z) (w : World) :
  _calc_nrows_ncols a b w = (Ok (nrows, ncols), w) ->
  (forall e, fst (cell_for_index nrows ncols idx w) = Raise e ->
             e = IndexError /\ kind_of e = Some IndexOutOfRange) /\
  (fails_with (cell_for_index nrows ncols idx w) IndexOutOfRange <->
   nrows * ncols <> 1 /\ ~ (- (nrows * ncols) <= idx < nrows * ncols)) /\
  _calc_nrows_ncols (VInt 5) (VInt 10) w = (Ok (1, 5), w) /\
  cell_for_index 1 5 5 w = (Raise IndexError, w).
Proof.
  intros Hplan.
  apply calc_ok_inv in Hplan as (n & m & _ & _ & _ & _ & _ & _ & Hr & Hc & _).
  destruct (cell_for_index_fails nrows ncols idx w Hr Hc) as [Honly Hiff].
  split; [|split; [|split; reflexivity]].
  - intros e He. apply Honly in He. subst e. split; reflexivity.
  - rewrite <- Hiff. split.
    + intros (e & He & Hk). apply Honly in He as He'. congruence.
    + intros He. exists IndexError. split; [assumption|reflexivity].
Qed.

Lemma cell_for_index_out_of_grid_witness :
  (forall e, fst (cell_for_index 2 3 6 (mkWorld DataLogger__init__ [])) = Raise e ->
             e = IndexError /\ kind_of e = Some IndexOutOfRange) /\
  (fails_with (cell_for_index 2 3 6 (mkWorld DataLogger__init__ [])) IndexOutOfRange <->
   2 * 3 <> 1 /\ ~ (- (2 * 3) <= 6 < 2 * 3)) /\
  _calc_nrows_ncols (VInt 5) (VInt 10) (mkWorld DataLogger__init__ []) =
    (Ok (1, 5), mkWorld DataLogger__init__ []) /\
  cell_for_index 1 5 5 (mkWorld DataLogger__init__ []) =
    (Raise IndexError, mkWorld DataLogger__init__ []).
Proof.
  apply (cell_for_index_out_of_grid (VInt 5) (VInt 3) 2 3 6). reflexivity.
Defined.

(** ** The metrics table *)

Example distinct_in_order_ex :
  distinct_in_order ["modelA"; "modelB"; "modelA"; "modelC"; "modelB"] =
    ["modelA"; "modelB"; "modelC"].
Proof. reflexivity. Qed.

Example add_overwrites_in_place :
  let acc := "Accuracy" in
  let w := mkWorld DataLogger__init__ [] in
  let calls := [([(acc, VFloat 1 (-1))], "modelA");
                ([(acc, VFloat 3 (-2))], "modelB");
                ([(acc, VFloat 7 (-3))], "modelA")] in
  entries (self (snd (for_each calls add_call w))) =
    [("modelA", [VFloat 7 (-3)]); ("modelB", [VFloat 3 (-2)])].
Proof. reflexivity. Qed.



Lemma note_name_elem seen name x :
  x ∈ note_name seen name <-> x ∈ seen \/ x = name.
Proof.
  unfold note_name. case_bool_decide.
  - split; [now left|]. intros [?|?]; [assumption|subst; assumption].
  - rewrite elem_of_app, list_elem_of_singleton. reflexivity.
Qed.




Lemma has_label_elem d name : has_label d name = true <-> name ∈ index d.
Proof.
  unfold has_label. rewrite existsb_exists. split.
  - intros (x & Hx & E). apply String.eqb_eq in E. subst.
    now apply list_elem_of_In.
  - intros H. exists name. split; [now apply list_elem_of_In|apply String.eqb_refl].
Qed.

Lemma set_row_label name vals row : fst (set_row name vals row) = fst row.
Proof. unfold set_row. destruct (String.eqb name (fst row)); reflexivity. Qed.

Lemma set_row_other name vals (l : list (string * list value)) :
  name ∉ map fst l -> map (set_row name vals) l = l.
Proof.
  induction l as [|[n r] l IH]; simpl; intros H; [reflexivity|].
  rewrite not_elem_of_cons in H. destruct H as [Hn Hl].
  unfold set_row at 1. simpl.
  replace (String.eqb name n) with false
    by (symmetry; apply String.eqb_neq; exact Hn).
  now rewrite IH.
Qed.


(** The labels after [df.loc[name] = metrics]. *)
Lemma loc_setitem_index d name metrics d' :
  loc_setitem d name metrics = Ok d' ->
  index d' = note_name (index d) name /\ columns d' = columns d.
Proof.
  unfold loc_setitem, note_name. destruct (has_label d name) eqn:Hl.
  - apply has_label_elem in Hl. intros H. inversion H; subst. simpl.
    rewrite bool_decide_eq_true_2 by assumption. split; [|reflexivity].
    unfold index. simpl. rewrite map_map.
    apply map_ext. intros row. apply set_row_label.
  - assert (Hn : name ∉ index d).
    { intros Hin. apply has_label_elem in Hin. congruence. }
    rewrite bool_decide_eq_false_2 by assumption.
    destruct (columns d) eqn:Hc; [discriminate|].
    intros H. inversion H; subst. simpl. split; [|congruence].
    unfold index. simpl. now rewrite map_app.
Qed.

(** [add] in one step: the table is created on first use, then written. *)
Lemma add_unfold metrics name lg bk :
  add metrics name (mkWorld lg bk) =
    let d := match _dataframe lg with
             | Some d => d
             | None => mkDataFrame (keys metrics) []
             end in
    match loc_setitem d name metrics with
    | Ok d' => (Ok tt, mkWorld (mkDataLogger (Some d')) bk)
    | Raise e => (Raise e, mkWorld (mkDataLogger (Some d)) bk)
    end.
Proof.
  destruct lg as [[d|]]; unfold add, bind, get_dataframe, set_dataframe, ret, lift, raise;
    simpl; destruct (loc_setitem _ name metrics); reflexivity.
Qed.








(** ** Rendering an empty log *)







(** A failed first [add] leaves a table without columns behind. *)
Example show_plots_after_failed_add :
  let w := snd (add [] "modelA" (mkWorld DataLogger__init__ [])) in
  fst (add [] "modelA" (mkWorld DataLogger__init__ [])) = Raise ValueError /\
  entries (self w) = [] /\
  fst (show_plots (VInt 3) 10 w) = Raise ValueError.
Proof. repeat split. Qed.

(** ** Frame properties *)

Lemma read_only_ret {A} (a : A) : read_only (ret a).
Proof. intros w. reflexivity. Qed.

Lemma read_only_raise {A} e : read_only (@raise A e).
Proof. intros w. reflexivity. Qed.

Lemma read_only_lift {A} (r : result A) : read_only (lift r).
Proof. intros w. reflexivity. Qed.

Lemma read_only_get_dataframe : read_only get_dataframe.
Proof. intros w. reflexivity. Qed.

Lemma read_only_call_backend c : read_only (call_backend c).
Proof. intros w. reflexivity. Qed.

Lemma read_only_bind {A B} (c : M A) (k : A -> M B) :
  read_only c -> (forall a, read_only (k a)) -> read_only (bind c k).
Proof.
  intros Hc Hk w. unfold bind. specialize (Hc w).
  destruct (c w) as [[a|e] w1]; simpl in *; [|assumption].
  rewrite Hk. assumption.
Qed.

Lemma read_only_for_each {A} (l : list A) (body : A -> M unit) :
  (forall a, read_only (body a)) -> read_only (for_each l body).
Proof.
  intros Hb. induction l as [|a l IH]; simpl.
  - apply read_only_ret.
  - apply read_only_bind; [apply Hb|intros _; exact IH].
Qed.

Create HintDb frame.
#[local] Hint Resolve read_only_ret read_only_raise read_only_lift
  read_only_get_dataframe read_only_call_backend : frame.

Ltac frame :=
  repeat first
    [ apply read_only_bind; [|intros ?]
    | apply read_only_for_each; intros ?
    | solve [auto with frame]
    | match goal with
      | |- read_only (if ?b then _ else _) => destruct b
      | |- read_only (match ?x with _ => _ end) => destruct x
      end ].

Lemma read_only_calc nplots max_ncols : read_only (_calc_nrows_ncols nplots max_ncols).
Proof. unfold _calc_nrows_ncols. frame. Qed.

Lemma read_only_get_ax axes idx nrows ncols : read_only (_get_ax axes idx nrows ncols).
Proof. unfold _get_ax. frame. Qed.

Lemma read_only_plt_subplots nrows ncols figsize :
  read_only (plt_subplots nrows ncols figsize).
Proof. unfold plt_subplots. frame. Qed.

Lemma read_only_show_plots max_ncols base_size : read_only (show_plots max_ncols base_size).
Proof.
  unfold show_plots.
  repeat first
    [ apply read_only_calc | apply read_only_get_ax | apply read_only_plt_subplots
    | apply read_only_bind; [|intros ?]
    | apply read_only_for_each; intros ?
    | solve [auto with frame]
    | match goal with
      | |- read_only (match ?x with _ => _ end) => destruct x
      end ].
Qed.

(** The layout computations do not even touch the plotting backend. *)
Lemma calc_world nplots max_ncols w : snd (_calc_nrows_ncols nplots max_ncols w) = w.
Proof.
  unfold _calc_nrows_ncols, bind, lift, ret, raise, floordiv, pymod.
  destruct (as_int nplots) as [n|], (as_int max_ncols) as [m|]; try reflexivity.
  destruct ((n <=? 0) || (m <=? 0))%bool; [reflexivity|].
  destruct ((if n <? m then n else m) =? 0); reflexivity.
Qed.

Lemma get_ax_world axes idx nrows ncols w : snd (_get_ax axes idx nrows ncols w) = w.
Proof.
  unfold _get_ax, bind, lift, ret, floordiv, pymod.
  destruct ((nrows >? 1) && (ncols >? 1))%bool.
  - destruct (ncols =? 0); reflexivity.
  - destruct (nrows * ncols =? 1); reflexivity.
Qed.

(** C10: [_calc_nrows_ncols] and [_get_ax] leave the world, and with it
    the logger's [_dataframe], unchanged; so do the [dataframe] property
    and [show_plots] for the logger; [add] on a fresh logger changes
    [_dataframe]. *)
Theorem layout_is_read_only
    (nplots max_ncols : value) (axes : AxesObj) (idx nrows ncols base_size : Z)
    (metrics : dict) (name : string) (w : World) :
  snd (_calc_nrows_ncols nplots max_ncols w) = w /\
  snd (_get_ax axes idx nrows ncols w) = w /\
  _dataframe (self (snd (_calc_nrows_ncols nplots max_ncols w))) = _dataframe (self w) /\
  _dataframe (self (snd (_get_ax axes idx nrows ncols w))) = _dataframe (self w) /\
  _dataframe (self (snd (dataframe w))) = _dataframe (self w) /\
  _dataframe (self (snd (show_plots max_ncols base_size w))) = _dataframe (self w) /\
  _dataframe (self (snd (add metrics name (mkWorld DataLogger__init__ (backend w)))))
    <> _dataframe DataLogger__init__.
Proof.
  rewrite calc_world, get_ax_world, read_only_show_plots.
  repeat split; try reflexivity.
  rewrite add_unfold. simpl.
  destruct (loc_setitem _ name metrics); discriminate.
Qed.

(** ** The prediction target *)

Example titanic_target :
  let train := mkDataFrame ["PassengerId"; "Survived"; "Pclass"; "Name"] [] in
  let test := mkDataFrame ["PassengerId"; "Pclass"; "Name"] [] in
  first (elements (column_difference train test)) = Ok "Survived".
Proof. vm_compute. reflexivity. Qed.

Lemma column_difference_unique train test c :
  c ∈ columns train -> c ∉ columns test ->
  (forall c', c' ∈ columns train -> c' ∉ columns test -> c' = c) ->
  column_difference train test = {[ c ]}.
Proof.
  intros Hin Hout Huniq. unfold column_difference.
  apply set_eq. intros x.
  rewrite elem_of_difference, !elem_of_list_to_set, elem_of_singleton.
  split.
  - intros [H1 H2]. now apply Huniq.
  - intros ->. now split.
Qed.

(** C8: when exactly one column of the training table is absent from the
    test table, [__init__] infers that column as the target: it is the
    target handed to [setup] and the [target] of the estimator built. *)
Theorem target_is_the_missing_column
    (md : PycaretModule) (input_data : gmap string DataFrame)
    (created metrics_name metrics_display_name : string)
    (train test sample : DataFrame) (c : string) :
  input_data !! KEY_TRAIN_DATA = Some train ->
  input_data !! KEY_TEST_DATA = Some test ->
  input_data !! KEY_SAMPLE_SUBMISSION_DATA = Some sample ->
  c ∈ columns train -> c ∉ columns test ->
  (forall c', c' ∈ columns train -> c' ∉ columns test -> c' = c) ->
  first (elements (column_difference train test)) = Ok c /\
  PycaretEstimator__init__ md input_data created metrics_name metrics_display_name =
    match setup md train c with
    | Raise e => Raise e
    | Ok _ =>
        Ok (mkPycaretEstimator md train test sample created metrics_name
              metrics_display_name c)
    end.
Proof.
  intros Htr Hte Hsa Hin Hout Huniq.
  assert (Hfirst : first (elements (column_difference train test)) = Ok c).
  { rewrite (column_difference_unique train test c) by assumption.
    now rewrite elements_singleton. }
  split; [exact Hfirst|].
  unfold PycaretEstimator__init__, item. rewrite Htr, Hte, Hsa, Hfirst.
  reflexivity.
Qed.

Lemma target_is_the_missing_column_witness :
  first (elements (column_difference
                     (mkDataFrame ["PassengerId"; "Survived"; "Pclass"] [])
                     (mkDataFrame ["PassengerId"; "Pclass"] []))) = Ok "Survived" /\
  PycaretEstimator__init__ (mkPycaretModule (fun _ _ => Ok tt))
      (<[KEY_TRAIN_DATA := mkDataFrame ["PassengerId"; "Survived"; "Pclass"] []]>
         (<[KEY_TEST_DATA := mkDataFrame ["PassengerId"; "Pclass"] []]>
            (<[KEY_SAMPLE_SUBMISSION_DATA := mkDataFrame ["PassengerId"; "Survived"] []]> ∅)))
      "Label" "Name" "Display Name" =
    match setup (mkPycaretModule (fun _ _ => Ok tt))
                (mkDataFrame ["PassengerId"; "Survived"; "Pclass"] []) "Survived" with
    | Raise e => Raise e
    | Ok _ =>
        Ok (mkPycaretEstimator (mkPycaretModule (fun _ _ => Ok tt))
              (mkDataFrame ["PassengerId"; "Survived"; "Pclass"] [])
              (mkDataFrame ["PassengerId"; "Pclass"] [])
              (mkDataFrame ["PassengerId"; "Survived"] [])
              "Label" "Name" "Display Name" "Survived")
    end.
Proof.
  apply (target_is_the_missing_column (mkPycaretModule (fun _ _ => Ok tt))).
  - vm_compute. reflexivity.
  - vm_compute. reflexivity.
  - vm_compute. reflexivity.
  - simpl. apply (bool_decide_unpack _). vm_compute. exact I.
  - simpl. apply (bool_decide_unpack _). vm_compute. exact I.
  - simpl.
    apply (proj1 (list.Forall_forall
                    (fun c' : string => c' ∉ ["PassengerId"; "Pclass"] -> c' = "Survived")
                    ["PassengerId"; "Survived"; "Pclass"])).
    apply (bool_decide_unpack _). vm_compute. exact I.
Defined.

(** * Further properties *)

(** ** Growth of the metrics table *)

Lemma add_columns metrics name lg bk d :
  _dataframe lg = Some d ->
  exists d', _dataframe (self (snd (add metrics name (mkWorld lg bk)))) = Some d' /\
             columns d' = columns d.
Proof.
  intros Hd. rewrite add_unfold, Hd. simpl.
  destruct (loc_setitem d name metrics) as [d'|e] eqn:Hs; simpl.
  - exists d'. split; [reflexivity|]. now apply loc_setitem_index in Hs.
  - exists d. split; reflexivity.
Qed.

Lemma add_all_columns calls lg bk d :
  _dataframe lg = Some d ->
  exists d', _dataframe (self (snd (for_each calls add_call (mkWorld lg bk)))) = Some d' /\
             columns d' = columns d.
Proof.
  revert lg bk d. induction calls as [|[m n] calls IH]; intros lg bk d Hd; simpl.
  - exists d. split; [exact Hd|reflexivity].
  - unfold bind, add_call. simpl.
    destruct (add_columns m n lg bk d Hd) as (d1 & Hd1 & Hc1).
    destruct (add m n (mkWorld lg bk)) as [[[]|e] [lg1 bk1]]; simpl in *.
    + destruct (IH lg1 bk1 d1 Hd1) as (d2 & Hd2 & Hc2).
      exists d2. split; [exact Hd2|congruence].
    + exists d1. split; [exact Hd1|exact Hc1].
Qed.

(** X1: the columns of the table are the keys of the first [add] and
    never change afterwards, whatever later calls supply and whether the
    sequence runs to its end or stops at an exception. *)
Theorem add_fixes_columns
    (m0 : dict) (n0 : string) (rest : list (dict * string)) (bk : list PlotCall) :
  exists d,
    _dataframe (self (snd (for_each ((m0, n0) :: rest) add_call
                                    (mkWorld DataLogger__init__ bk)))) = Some d /\
    columns d = keys m0.
Proof.
  simpl. unfold bind, add_call. simpl.
  assert (H1 : exists d1,
    _dataframe (self (snd (add m0 n0 (mkWorld DataLogger__init__ bk)))) = Some d1 /\
    columns d1 = keys m0).
  { rewrite add_unfold. simpl.
    destruct (loc_setitem _ n0 m0) as [d'|e] eqn:Hs; simpl.
    - exists d'. split; [reflexivity|]. now apply loc_setitem_index in Hs.
    - eexists. split; reflexivity. }
  destruct H1 as (d1 & Hd1 & Hc1).
  destruct (add m0 n0 (mkWorld DataLogger__init__ bk)) as [[[]|e] [lg1 bk1]]; simpl in *.
  - destruct (add_all_columns rest lg1 bk1 d1 Hd1) as (d2 & Hd2 & Hc2).
    exists d2. split; [exact Hd2|congruence].
  - exists d1. split; assumption.
Qed.

Lemma align_length cols metrics : length (align cols metrics) = length cols.
Proof. unfold align. apply length_map. Qed.

Lemma loc_setitem_rectangular d name metrics d' :
  loc_setitem d name metrics = Ok d' -> rectangular d -> rectangular d'.
Proof.
  unfold loc_setitem, rectangular. destruct (has_label d name).
  - intros H Hr. inversion H; subst; clear H. simpl.
    apply Forall_forall. intros r Hin.
    change (r ∈ set_row name (align (columns d) metrics) <$> rows d) in Hin.
    apply list_elem_of_fmap in Hin as (r0 & -> & Hin0).
    unfold set_row. destruct (String.eqb name (fst r0)); simpl.
    + apply align_length.
    + revert r0 Hin0. now apply Forall_forall.
  - destruct (columns d) eqn:Hc; [discriminate|].
    intros H Hr. inversion H; subst; clear H. simpl.
    apply Forall_app. split; [exact Hr|].
    apply Forall_singleton. simpl. rewrite align_length. reflexivity.
Qed.

(** X2: every table that [__init__] and [add] can produce is
    rectangular: each row holds exactly one cell per column. *)
Theorem reachable_rectangular (lg : DataLogger) (d : DataFrame) :
  reachable lg -> _dataframe lg = Some d -> rectangular d.
Proof.
  intros Hr. revert d.
  induction Hr as [|lg metrics name bk Hr IH]; intros d; [discriminate|].
  rewrite add_unfold. simpl.
  destruct (loc_setitem _ name metrics) as [d'|e] eqn:Hs; simpl.
  - intros E. inversion E; subst; clear E.
    apply (loc_setitem_rectangular _ _ _ _ Hs).
    destruct (_dataframe lg) as [d0|]; [now apply IH|]. apply Forall_nil_2.
  - intros E. inversion E; subst; clear E.
    destruct (_dataframe lg) as [d0|]; [now apply IH|]. apply Forall_nil_2.
Qed.

Lemma reachable_rectangular_witness :
  rectangular (mkDataFrame ["Accuracy"; "F1"] [("modelA", [VFloat 1 (-1); VNaN])]).
Proof.
  apply (reachable_rectangular
           (self (snd (add [("Accuracy", VFloat 1 (-1))] "modelA"
                       (snd (add [("Accuracy", VFloat 3 (-2)); ("F1", VInt 1)] "modelA"
                                 (mkWorld DataLogger__init__ []))))))).
  - exact (reach_add _ [("Accuracy", VFloat 1 (-1))] "modelA" []
             (reach_add _ [("Accuracy", VFloat 3 (-2)); ("F1", VInt 1)] "modelA" []
                reach_init)).
  - reflexivity.
Defined.


Lemma loc_setitem_row d name metrics d' :
  loc_setitem d name metrics = Ok d' ->
  name ∈ index d' /\
  forall r, (name, r) ∈ rows d' ->
            (name, r) ∈ rows d \/ r = align (columns d') metrics.
Proof.
  intros Hs. pose proof (loc_setitem_index _ _ _ _ Hs) as [Hi Hc].
  split.
  { rewrite Hi. apply note_name_elem. now right. }
  revert Hs. unfold loc_setitem. destruct (has_label d name) eqn:Hl.
  - intros H. inversion H; subst; clear H. simpl. intros r Hin.
    change ((name, r) ∈ set_row name (align (columns d) metrics) <$> rows d) in Hin.
    apply list_elem_of_fmap in Hin as (r0 & E & Hin0).
    unfold set_row in E. destruct (String.eqb name (fst r0)) eqn:Heq.
    + inversion E. now right.
    + left. now rewrite E.
  - destruct (columns d) eqn:Hcols; [discriminate|].
    intros H. inversion H; subst; clear H. simpl. intros r Hin.
    apply elem_of_app in Hin as [Hin|Hin]; [now left|].
    apply list_elem_of_singleton in Hin. inversion Hin. now right.
Qed.







(** X6: a first [add] with an empty [metrics] raises [ValueError] and
    leaves a table without columns behind; from then on every call of
    [add] raises [ValueError] and changes nothing, so the log stays
    empty. *)
Theorem add_empty_first_is_final
    (m0 : dict) (n0 : string) (bk : list PlotCall) :
  keys m0 = [] ->
  let w1 := mkWorld (mkDataLogger (Some (mkDataFrame [] []))) bk in
  add m0 n0 (mkWorld DataLogger__init__ bk) = (Raise ValueError, w1) /\
  entries (self w1) = [] /\
  forall metrics name, add metrics name w1 = (Raise ValueError, w1).
Proof.
  intros Hk w1. split; [|split; [reflexivity|]].
  - rewrite add_unfold. simpl. unfold loc_setitem. simpl. rewrite Hk. reflexivity.
  - intros metrics name. unfold w1. rewrite add_unfold. reflexivity.
Qed.

Lemma add_empty_first_is_final_witness :
  let w1 := mkWorld (mkDataLogger (Some (mkDataFrame [] []))) [] in
  add [] "modelA" (mkWorld DataLogger__init__ []) = (Raise ValueError, w1) /\
  entries (self w1) = [] /\
  forall metrics name, add metrics name w1 = (Raise ValueError, w1).
Proof.
  apply (add_empty_first_is_final [] "modelA" []). reflexivity.
Defined.

(** ** Rendering a table *)

Lemma bind_ok {A B} (c : M A) (k : A -> M B) w a w' :
  c w = (Ok a, w') -> bind c k w = k a w'.
Proof. intros H. unfold bind. now rewrite H. Qed.






Example show_plots_four_metrics :
  let d := mkDataFrame ["Accuracy"; "AUC"; "Recall"; "F1"]
             [("modelA", [VInt 1; VInt 2; VInt 3; VInt 4])] in
  show_plots (VInt 3) 10 (mkWorld (mkDataLogger (Some d)) []) =
    (Ok tt,
     mkWorld (mkDataLogger (Some d))
       [SetContext "poster" (VFloat 3 (-1));
        Subplots 2 3 (20, 30);
        Barplot ["modelA"] [VInt 1] (mkAxes 0 0);
        AxSet (mkAxes 0 0) "Accuracy"; AxSetXTickLabels (mkAxes 0 0) 45 "right";
        Barplot ["modelA"] [VInt 2] (mkAxes 0 1);
        AxSet (mkAxes 0 1) "AUC"; AxSetXTickLabels (mkAxes 0 1) 45 "right";
        Barplot ["modelA"] [VInt 3] (mkAxes 0 2);
        AxSet (mkAxes 0 2) "Recall"; AxSetXTickLabels (mkAxes 0 2) 45 "right";
        Barplot ["modelA"] [VInt 4] (mkAxes 1 0);
        AxSet (mkAxes 1 0) "F1"; AxSetXTickLabels (mkAxes 1 0) 45 "right"]).
Proof. reflexivity. Qed.









(** X9: once the table exists, a [max_ncols] that is not an int makes
    [show_plots] raise [TypeError] and an int [max_ncols <= 0] makes it
    raise [ValueError]; in both cases after [set_context] and before any
    figure is created. *)
Theorem show_plots_bad_max_ncols
    (max_ncols : value) (base_size : Z) (w : World) (d : DataFrame) :
  _dataframe (self w) = Some d ->
  not_integer max_ncols \/ (exists m, as_int max_ncols = Some m /\ m <= 0) ->
  show_plots max_ncols base_size w =
    (Raise (if isinstance_int max_ncols then ValueError else TypeError),
     mkWorld (self w) (backend w ++ [SetContext "poster" (VFloat 3 (-1))])).
Proof.
  intros Hd Hbad. unfold show_plots.
  rewrite (bind_ok _ _ _ tt (mkWorld (self w) (backend w ++ [SetContext "poster" (VFloat 3 (-1))])))
    by reflexivity.
  rewrite (bind_ok _ _ _ (Some d) (mkWorld (self w) (backend w ++ [SetContext "poster" (VFloat 3 (-1))])))
    by (unfold get_dataframe; simpl; now rewrite Hd).
  rewrite (bind_ok _ _ _ (columns d) (mkWorld (self w) (backend w ++ [SetContext "poster" (VFloat 3 (-1))])))
    by reflexivity.
  unfold bind at 1.
  destruct Hbad as [Hni|(m & Hm & Hle)].
  - rewrite calc_not_int by now right. unfold not_integer in Hni. now rewrite Hni.
  - rewrite (calc_non_positive _ max_ncols (len (columns d)) m) by auto.
    replace (isinstance_int max_ncols) with true; [reflexivity|].
    symmetry. apply as_int_isinstance. eauto.
Qed.

Lemma show_plots_bad_max_ncols_witness :
  show_plots (VInt 0) 10
    (mkWorld (mkDataLogger (Some (mkDataFrame ["Accuracy"] [("modelA", [VInt 1])]))) []) =
    (Raise (if isinstance_int (VInt 0) then ValueError else TypeError),
     mkWorld (mkDataLogger (Some (mkDataFrame ["Accuracy"] [("modelA", [VInt 1])])))
             ([] ++ [SetContext "poster" (VFloat 3 (-1))])).
Proof.
  apply (show_plots_bad_max_ncols (VInt 0) 10
           (mkWorld (mkDataLogger (Some (mkDataFrame ["Accuracy"] [("modelA", [VInt 1])]))) [])
           (mkDataFrame ["Accuracy"] [("modelA", [VInt 1])])).
  - reflexivity.
  - right. exists 0. split; [reflexivity|lia].
Defined.

(** ** Negative plot indices *)

Lemma np_index_negative n i : - n <= i < 0 -> np_index n i = Ok (i + n).
Proof.
  intros H. unfold np_index.
  destruct (Z.leb_spec 0 i); [lia|]. simpl.
  destruct (Z.leb_spec (- n) i), (Z.ltb_spec i 0); simpl; try lia. reflexivity.
Qed.

(** X10: [_get_ax] counts a negative index from the end of the grid: an
    index in [[-rows*columns, 0)] selects the panel of
    [index + rows*columns], so [-1] is the last panel of the grid. *)
Theorem cell_for_index_negative (nrows ncols idx : Z) (w : World) :
  0 < nrows -> 0 < ncols -> - (nrows * ncols) <= idx < 0 ->
  cell_for_index nrows ncols idx w =
    cell_for_index nrows ncols (idx + nrows * ncols) w /\
  cell_for_index nrows ncols idx w =
    (Ok ((idx + nrows * ncols) / ncols, (idx + nrows * ncols) mod ncols), w).
Proof.
  intros Hr Hc Hi.
  rewrite (cell_for_index_valid nrows ncols (idx + nrows * ncols)) by lia.
  assert (Hgoal : cell_for_index nrows ncols idx w =
    (Ok ((idx + nrows * ncols) / ncols, (idx + nrows * ncols) mod ncols), w));
    [|now split].
  rewrite cell_for_index_closed by assumption.
  rewrite Z.div_add, Z.mod_add by lia.
  pose proof (Z.div_mod idx ncols ltac:(lia)) as Hdm.
  pose proof (Z.mod_pos_bound idx ncols Hc) as Hb.
  rewrite !Z.gtb_ltb.
  destruct (Z.ltb_spec 1 nrows), (Z.ltb_spec 1 ncols); simpl andb; cbv iota.
  - rewrite np_index_negative by nia. reflexivity.
  - assert (ncols = 1) by lia. subst ncols.
    replace (nrows * 1 =? 1) with false by (symmetry; apply Z.eqb_neq; lia).
    replace (nrows =? 1) with false by (symmetry; apply Z.eqb_neq; lia).
    rewrite np_index_negative by lia.
    rewrite Z.div_1_r, Z.mod_1_r. reflexivity.
  - assert (nrows = 1) by lia. subst nrows.
    replace (1 * ncols =? 1) with false by (symmetry; apply Z.eqb_neq; lia).
    simpl Z.eqb. cbv iota. rewrite np_index_negative by lia.
    assert (Hd : idx / ncols = -1).
    { pose proof (Z.div_lt_upper_bound idx ncols 0 Hc ltac:(lia)).
      pose proof (Z.div_le_lower_bound idx ncols (-1) Hc ltac:(lia)). lia. }
    rewrite Hd in *. replace (idx mod ncols) with (idx + ncols) by lia.
    reflexivity.
  - assert (nrows = 1) by lia. assert (ncols = 1) by lia. subst.
    assert (idx = -1) by lia. subst. reflexivity.
Qed.

Lemma cell_for_index_negative_witness :
  cell_for_index 3 3 (-1) (mkWorld DataLogger__init__ []) =
    cell_for_index 3 3 (-1 + 3 * 3) (mkWorld DataLogger__init__ []) /\
  cell_for_index 3 3 (-1) (mkWorld DataLogger__init__ []) =
    (Ok ((-1 + 3 * 3) / 3, (-1 + 3 * 3) mod 3), mkWorld DataLogger__init__ []).
Proof.
  apply (cell_for_index_negative 3 3 (-1)); lia.
Defined.

(** ** Constructing the estimator *)

Lemma first_elem l c : first l = Ok c -> c ∈ l.
Proof. destruct l; [discriminate|]. intros E. inversion E. left. Qed.

(** X11: whenever [__init__] returns, the estimator holds the three
    tables of [input_data] and its target is a column of the training
    table that the test table lacks, also when several columns differ. *)
Theorem init_target_sound
    (md : PycaretModule) (input_data : gmap string DataFrame)
    (created metrics_name metrics_display_name : string)
    (est : PycaretEstimator) :
  PycaretEstimator__init__ md input_data created metrics_name metrics_display_name
    = Ok est ->
  input_data !! KEY_TRAIN_DATA = Some (train_data est) /\
  input_data !! KEY_TEST_DATA = Some (test_data est) /\
  input_data !! KEY_SAMPLE_SUBMISSION_DATA = Some (sample_submit_data est) /\
  (target est ∈ columns (train_data est)) /\
  (target est ∉ columns (test_data est)) /\
  setup md (train_data est) (target est) = Ok tt.
Proof.
  unfold PycaretEstimator__init__, item.
  destruct (input_data !! KEY_TRAIN_DATA) as [train|]; [|discriminate].
  destruct (input_data !! KEY_TEST_DATA) as [test|]; [|discriminate].
  destruct (input_data !! KEY_SAMPLE_SUBMISSION_DATA) as [sample|]; [|discriminate].
  destruct (first _) as [tgt|e] eqn:Hf; [|discriminate].
  destruct (setup md train tgt) as [[]|e] eqn:Hs; [|discriminate].
  intros E. inversion E; subst; clear E. simpl.
  apply first_elem, elem_of_elements in Hf. unfold column_difference in Hf.
  apply elem_of_difference in Hf as [Hin Hout].
  rewrite elem_of_list_to_set in Hin, Hout. repeat split; assumption.
Qed.

Lemma init_target_sound_witness :
  let tables : gmap string DataFrame :=
    <[KEY_TRAIN_DATA := mkDataFrame ["PassengerId"; "Survived"; "Pclass"] []]>
      (<[KEY_TEST_DATA := mkDataFrame ["PassengerId"; "Pclass"] []]>
         (<[KEY_SAMPLE_SUBMISSION_DATA := mkDataFrame ["PassengerId"; "Survived"] []]> ∅)) in
  let est := mkPycaretEstimator (mkPycaretModule (fun _ _ => Ok tt))
               (mkDataFrame ["PassengerId"; "Survived"; "Pclass"] [])
               (mkDataFrame ["PassengerId"; "Pclass"] [])
               (mkDataFrame ["PassengerId"; "Survived"] [])
               "Label" "Name" "Display Name" "Survived" in
  tables !! KEY_TRAIN_DATA = Some (train_data est) /\
  tables !! KEY_TEST_DATA = Some (test_data est) /\
  tables !! KEY_SAMPLE_SUBMISSION_DATA = Some (sample_submit_data est) /\
  (target est ∈ columns (train_data est)) /\
  (target est ∉ columns (test_data est)) /\
  setup (mkPycaretModule (fun _ _ => Ok tt)) (train_data est) (target est) = Ok tt.
Proof.
  apply (init_target_sound (mkPycaretModule (fun _ _ => Ok tt)) _ "Label" "Name" "Display Name").
  vm_compute. reflexivity.
Defined.

(** X12: when every column of the training table is also a column of
    the test table there is no target to infer: [__init__] raises
    [IndexError], whatever [setup] would do. *)
Theorem init_no_target_index_error
    (md : PycaretModule) (input_data : gmap string DataFrame)
    (created metrics_name metrics_display_name : string)
    (train test sample : DataFrame) :
  input_data !! KEY_TRAIN_DATA = Some train ->
  input_data !! KEY_TEST_DATA = Some test ->
  input_data !! KEY_SAMPLE_SUBMISSION_DATA = Some sample ->
  (forall c, c ∈ columns train -> c ∈ columns test) ->
  PycaretEstimator__init__ md input_data created metrics_name metrics_display_name
    = Raise IndexError.
Proof.
  intros Htr Hte Hsa Hsub.
  unfold PycaretEstimator__init__, item. rewrite Htr, Hte, Hsa.
  assert (Hempty : column_difference train test = ∅).
  { unfold column_difference. apply set_eq. intros c.
    rewrite elem_of_difference, !elem_of_list_to_set. split.
    - intros [Hin Hout]. exfalso. auto.
    - intros H. exfalso. revert H. apply not_elem_of_empty. }
  rewrite Hempty, elements_empty. reflexivity.
Qed.

Lemma init_no_target_index_error_witness :
  PycaretEstimator__init__ (mkPycaretModule (fun _ _ => Ok tt))
    (<[KEY_TRAIN_DATA := mkDataFrame ["PassengerId"; "Pclass"] []]>
       (<[KEY_TEST_DATA := mkDataFrame ["Pclass"; "PassengerId"; "Name"] []]>
          (<[KEY_SAMPLE_SUBMISSION_DATA := mkDataFrame ["PassengerId"; "Survived"] []]> ∅)))
    "Label" "Name" "Display Name" = Raise IndexError.
Proof.
  apply (init_no_target_index_error _ _ _ _ _
           (mkDataFrame ["PassengerId"; "Pclass"] [])
           (mkDataFrame ["Pclass"; "PassengerId"; "Name"] [])
           (mkDataFrame ["PassengerId"; "Survived"] [])).
  - vm_compute. reflexivity.
  - vm_compute. reflexivity.
  - vm_compute. reflexivity.
  - simpl.
    apply (proj1 (list.Forall_forall
                    (fun c : string => c ∈ ["Pclass"; "PassengerId"; "Name"])
                    ["PassengerId"; "Pclass"])).
    apply (bool_decide_unpack _). vm_compute. exact I.
Defined.

(** X13: an [input_data] that lacks one of the keys ['train'], ['test']
    and ['sample_submission'] makes [__init__] raise [KeyError], before
    any column is looked at. *)
Theorem init_missing_key
    (md : PycaretModule) (input_data : gmap string DataFrame)
    (created metrics_name metrics_display_name : string) :
  input_data !! KEY_TRAIN_DATA = None \/
  input_data !! KEY_TEST_DATA = None \/
  input_data !! KEY_SAMPLE_SUBMISSION_DATA = None ->
  PycaretEstimator__init__ md input_data created metrics_name metrics_display_name
    = Raise KeyError.
Proof.
  intros H. unfold PycaretEstimator__init__, item.
  destruct (input_data !! KEY_TRAIN_DATA) as [train|]; [|reflexivity].
  destruct (input_data !! KEY_TEST_DATA) as [test|]; [|reflexivity].
  destruct (input_data !! KEY_SAMPLE_SUBMISSION_DATA) as [sample|]; [|reflexivity].
  destruct H as [H|[H|H]]; discriminate.
Qed.

Lemma init_missing_key_witness :
  PycaretEstimator__init__ (mkPycaretModule (fun _ _ => Ok tt))
    (<[KEY_TRAIN_DATA := mkDataFrame ["PassengerId"; "Survived"] []]>
       (<[KEY_TEST_DATA := mkDataFrame ["PassengerId"] []]> ∅))
    "Label" "Name" "Display Name" = Raise KeyError.
Proof.
  apply init_missing_key. right. right. vm_compute. reflexivity.
Defined.

(** ** The submission table *)

Lemma existsb_eqb_elem (c : string) (l : list string) :
  existsb (String.eqb c) l = true <-> c ∈ l.
Proof.
  rewrite existsb_exists. split.
  - intros (x & Hx & E). apply String.eqb_eq in E. subst. now apply list_elem_of_In.
  - intros H. exists c. split; [now apply list_elem_of_In|apply String.eqb_refl].
Qed.

Lemma position_Some cols c i :
  position cols c = Some i -> cols !! i = Some c.
Proof.
  revert i. induction cols as [|c0 cols IH]; intros i; simpl; [discriminate|].
  destruct (String.eqb c0 c) eqn:E.
  - intros H. inversion H; subst. apply String.eqb_eq in E. now subst.
  - destruct (position cols c) as [j|]; simpl; [|discriminate].
    intros H. inversion H; subst. simpl. now apply IH.
Qed.

Lemma position_app_other cols t c :
  c <> t -> position (cols ++ [t]) c = position cols c.
Proof.
  intros Hne. induction cols as [|c0 cols IH]; simpl.
  - replace (String.eqb t c) with false; [reflexivity|].
    symmetry. apply String.eqb_neq. congruence.
  - destruct (String.eqb c0 c); [reflexivity|]. now rewrite IH.
Qed.

Lemma position_app_new cols t :
  t ∉ cols -> position (cols ++ [t]) t = Some (length cols).
Proof.
  induction cols as [|c0 cols IH]; simpl; intros Hn.
  - now rewrite String.eqb_refl.
  - apply not_elem_of_cons in Hn as [Hne Hn].
    replace (String.eqb c0 t) with false
      by (symmetry; apply String.eqb_neq; congruence).
    now rewrite IH.
Qed.

Lemma set_cells_length cols col v cells :
  length (set_cells cols col v cells) = length cells.
Proof.
  revert cells. induction cols as [|c cols IH]; intros [|x cells]; simpl; auto.
Qed.

Lemma set_cells_lookup cols col v cells i c :
  cols !! i = Some c ->
  set_cells cols col v cells !! i =
    (fun x => if String.eqb c col then v else x) <$> cells !! i.
Proof.
  revert cells i. induction cols as [|c0 cols IH]; intros cells i; [discriminate|].
  destruct cells as [|x cells]; [reflexivity|].
  destruct i as [|i]; simpl.
  - intros E. now inversion E.
  - apply IH.
Qed.

(** X14: for a rectangular sample table that has the target column or
    at least one row, [_create_submit_data] returns a table with the
    sample's row labels in which every cell of the target column is NaN
    and every other column is as in the sample; a missing target column
    is added as the last one. *)
Theorem create_submit_data_blank_target (est : PycaretEstimator) :
  rectangular (sample_submit_data est) ->
  target est ∈ columns (sample_submit_data est) \/ rows (sample_submit_data est) <> [] ->
  exists df,
    _create_submit_data est = Ok df /\
    index df = index (sample_submit_data est) /\
    columns df =
      (if bool_decide (target est ∈ columns (sample_submit_data est))
       then columns (sample_submit_data est)
       else columns (sample_submit_data est) ++ [target est]) /\
    column_values df (target est) = map (fun _ => VNaN) (rows df) /\
    (forall c, c <> target est ->
       column_values df c = column_values (sample_submit_data est) c) /\
    rectangular df.
Proof.
  destruct est as [md tr te [cols rws] ctc mnc mdnc tgt]. simpl.
  unfold rectangular. simpl. intros Hrect Hcase.
  unfold _create_submit_data, loc_set_column. simpl.
  destruct (existsb (String.eqb tgt) cols) eqn:Hex.
  - apply existsb_eqb_elem in Hex.
    eexists. split; [reflexivity|]. simpl.
    rewrite bool_decide_eq_true_2 by assumption.
    split; [|split; [reflexivity|split; [|split]]].
    + unfold index. simpl. rewrite map_map. reflexivity.
    + unfold column_values. simpl. rewrite !map_map. simpl.
      apply map_ext_Forall. eapply Forall_impl; [exact Hrect|].
      intros [n cells] Hlen. simpl in *.
      destruct (position cols tgt) as [i|] eqn:Hp; [|reflexivity]. simpl.
      rewrite (set_cells_lookup cols tgt VNaN cells i tgt (position_Some _ _ _ Hp)).
      rewrite String.eqb_refl. destruct (cells !! i); reflexivity.
    + intros c Hne. unfold column_values. simpl. rewrite map_map. simpl.
      apply map_ext. intros [n cells]. simpl.
      destruct (position cols c) as [i|] eqn:Hp; [|reflexivity]. simpl.
      rewrite (set_cells_lookup cols tgt VNaN cells i c (position_Some _ _ _ Hp)).
      replace (String.eqb c tgt) with false
        by (symmetry; apply String.eqb_neq; exact Hne).
      destruct (cells !! i); reflexivity.
    + apply Forall_forall. intros r Hin.
      change (r ∈ (fun r => (fst r, set_cells cols tgt VNaN (snd r))) <$> rws) in Hin.
      apply list_elem_of_fmap in Hin as (r0 & -> & Hin0). simpl.
      rewrite set_cells_length. revert r0 Hin0. now apply Forall_forall.
  - assert (Hnot : tgt ∉ cols).
    { intros Hin. apply existsb_eqb_elem in Hin. congruence. }
    destruct Hcase as [Hin|Hrows]; [contradiction|].
    destruct rws as [|r0 rws0] eqn:Erws; [congruence|]. rewrite <- Erws in *.
    eexists. split; [reflexivity|]. simpl.
    rewrite bool_decide_eq_false_2 by assumption.
    split; [|split; [reflexivity|split; [|split]]].
    + unfold index. simpl. rewrite map_map. reflexivity.
    + unfold column_values. simpl. rewrite !map_map. simpl.
      rewrite position_app_new by assumption. simpl.
      apply map_ext_Forall. eapply Forall_impl; [exact Hrect|].
      intros [n cells] Hlen. simpl in *.
      rewrite <- Hlen. now rewrite list_lookup_middle.
    + intros c Hne. unfold column_values. simpl. rewrite map_map. simpl.
      rewrite position_app_other by assumption.
      apply map_ext_Forall. eapply Forall_impl; [exact Hrect|].
      intros [n cells] Hlen. simpl in *.
      destruct (position cols c) as [i|] eqn:Hp; [|reflexivity]. simpl.
      apply position_Some, lookup_lt_Some in Hp.
      rewrite lookup_app_l by lia. reflexivity.
    + apply Forall_forall. intros r Hin.
      change (r ∈ (fun r => (fst r, snd r ++ [VNaN])) <$> rws) in Hin.
      apply list_elem_of_fmap in Hin as (r1 & -> & Hin0). simpl.
      rewrite !length_app. simpl. f_equal.
      revert r1 Hin0. now apply Forall_forall.
Qed.

Lemma create_submit_data_blank_target_witness :
  let est := mkPycaretEstimator (mkPycaretModule (fun _ _ => Ok tt))
               (mkDataFrame ["PassengerId"; "Survived"; "Pclass"] [])
               (mkDataFrame ["PassengerId"; "Pclass"] [])
               (mkDataFrame ["PassengerId"; "Survived"]
                  [("0", [VInt 892; VInt 0]); ("1", [VInt 893; VInt 1])])
               "Label" "Name" "Display Name" "Survived" in
  exists df,
    _create_submit_data est = Ok df /\
    index df = index (sample_submit_data est) /\
    columns df =
      (if bool_decide (target est ∈ columns (sample_submit_data est))
       then columns (sample_submit_data est)
       else columns (sample_submit_data est) ++ [target est]) /\
    column_values df (target est) = map (fun _ => VNaN) (rows df) /\
    (forall c, c <> target est ->
       column_values df c = column_values (sample_submit_data est) c) /\
    rectangular df.
Proof.
  apply (create_submit_data_blank_target
           (mkPycaretEstimator (mkPycaretModule (fun _ _ => Ok tt))
              (mkDataFrame ["PassengerId"; "Survived"; "Pclass"] [])
              (mkDataFrame ["PassengerId"; "Pclass"] [])
              (mkDataFrame ["PassengerId"; "Survived"]
                 [("0", [VInt 892; VInt 0]); ("1", [VInt 893; VInt 1])])
              "Label" "Name" "Display Name" "Survived")).
  - unfold rectangular. simpl. repeat constructor.
  - right. simpl. discriminate.
Defined.

Example create_submit_data_titanic :
  _create_submit_data
    (mkPycaretEstimator (mkPycaretModule (fun _ _ => Ok tt))
       (mkDataFrame ["PassengerId"; "Survived"; "Pclass"] [])
       (mkDataFrame ["PassengerId"; "Pclass"] [])
       (mkDataFrame ["PassengerId"; "Survived"]
          [("0", [VInt 892; VInt 0]); ("1", [VInt 893; VInt 1])])
       "Label" "Name" "Display Name" "Survived") =
  Ok (mkDataFrame ["PassengerId"; "Survived"]
        [("0", [VInt 892; VNaN]); ("1", [VInt 893; VNaN])]).
Proof. reflexivity. Qed.

(** X15: a sample table without rows and without the target column
    cannot take the scalar: [_create_submit_data] raises [ValueError]. *)
Theorem create_submit_data_empty_sample (est : PycaretEstimator) :
  target est ∉ columns (sample_submit_data est) ->
  rows (sample_submit_data est) = [] ->
  _create_submit_data est = Raise ValueError.
Proof.
  intros Hn Hrows. unfold _create_submit_data, loc_set_column.
  replace (existsb (String.eqb (target est)) (columns (sample_submit_data est)))
    with false.
  - now rewrite Hrows.
  - symmetry. apply not_true_is_false. intros H.
    apply existsb_eqb_elem in H. contradiction.
Qed.

Lemma create_submit_data_empty_sample_witness :
  _create_submit_data
    (mkPycaretEstimator (mkPycaretModule (fun _ _ => Ok tt))
       (mkDataFrame ["PassengerId"; "Survived"] [])
       (mkDataFrame ["PassengerId"] [])
       (mkDataFrame ["PassengerId"] [])
       "Label" "Name" "Display Name" "Survived") = Raise ValueError.
Proof.
  apply create_submit_data_empty_sample.
  - simpl. apply (bool_decide_unpack _). vm_compute. exact I.
  - reflexivity.
Defined.

(** ** Importing the tables *)

Example default_paths :
  get_file_path (DataImporter__init__ "./input/" "train.csv" "test.csv"
                   "sample_submission.csv" VNone) !! KEY_SAMPLE_SUBMISSION_DATA =
    Some "./input/sample_submission.csv".
Proof. vm_compute. reflexivity. Qed.

Lemma read_returned {E} (read_csv : string -> value -> outcome E DataFrame)
    importer lines d :
  read read_csv importer = (lines, Returned d) ->
  exists df_train df_test df_sample,
    read_csv (_train_file_path importer) (_index_col importer) = Returned df_train /\
    read_csv (_test_file_path importer) (_index_col importer) = Returned df_test /\
    read_csv (_sample_submission_file_path importer) (_index_col importer)
      = Returned df_sample /\
    d = <[KEY_TRAIN_DATA := df_train]>
          (<[KEY_TEST_DATA := df_test]>
             (<[KEY_SAMPLE_SUBMISSION_DATA := df_sample]> ∅)).
Proof.
  unfold read.
  destruct (read_csv (_train_file_path importer) _) as [df_train|e]; [|discriminate].
  destruct (read_csv (_test_file_path importer) _) as [df_test|e]; [|discriminate].
  destruct (read_csv (_sample_submission_file_path importer) _) as [df_sample|e];
    [|discriminate].
  intros H. inversion H; subst. eauto 10.
Qed.

Lemma keys_distinct :
  KEY_TRAIN_DATA <> KEY_TEST_DATA /\
  KEY_TRAIN_DATA <> KEY_SAMPLE_SUBMISSION_DATA /\
  KEY_TEST_DATA <> KEY_SAMPLE_SUBMISSION_DATA.
Proof. repeat split; discriminate. Qed.

(** X16: when [read] returns, its dict has a table under exactly the
    keys of [get_file_path], and the table under a key is what
    [read_csv] yields for the path [get_file_path] gives under that key,
    read with the importer's [index_col]. *)
Theorem read_follows_file_paths {E : Type}
    (read_csv : string -> value -> outcome E DataFrame)
    (importer : DataImporter) (lines : list string) (d : gmap string DataFrame) :
  read read_csv importer = (lines, Returned d) ->
  dom d = dom (get_file_path importer) /\
  forall k path, get_file_path importer !! k = Some path ->
    exists df, d !! k = Some df /\
               read_csv path (_index_col importer) = Returned df.
Proof.
  intros H. apply read_returned in H as (dtr & dte & dsa & Htr & Hte & Hsa & ->).
  destruct keys_distinct as (H1 & H2 & H3).
  split.
  - unfold get_file_path. rewrite !dom_insert_L, !dom_empty_L. reflexivity.
  - intros k path. unfold get_file_path.
    destruct (decide (k = KEY_TRAIN_DATA)) as [->|N1].
    { rewrite !lookup_insert_eq. intros E1. inversion E1; subst. eauto. }
    rewrite !(lookup_insert_ne _ KEY_TRAIN_DATA k) by congruence.
    destruct (decide (k = KEY_TEST_DATA)) as [->|N2].
    { rewrite !lookup_insert_eq. intros E1. inversion E1; subst. eauto. }
    rewrite !(lookup_insert_ne _ KEY_TEST_DATA k) by congruence.
    destruct (decide (k = KEY_SAMPLE_SUBMISSION_DATA)) as [->|N3].
    { rewrite !lookup_insert_eq. intros E1. inversion E1; subst. eauto. }
    rewrite !(lookup_insert_ne _ KEY_SAMPLE_SUBMISSION_DATA k) by congruence.
    rewrite lookup_empty. discriminate.
Qed.

Lemma read_follows_file_paths_witness :
  let read_csv : string -> value -> outcome string DataFrame :=
    fun path _ =>
      if String.eqb path "./input/train.csv"
      then Returned (mkDataFrame ["PassengerId"; "Survived"] [("0", [VInt 1; VInt 0])])
      else if String.eqb path "./input/test.csv"
      then Returned (mkDataFrame ["PassengerId"] [("0", [VInt 892])])
      else if String.eqb path "./input/sample_submission.csv"
      then Returned (mkDataFrame ["PassengerId"; "Survived"] [("0", [VInt 892; VInt 0])])
      else Failed "FileNotFoundError" in
  let importer := DataImporter__init__ "./input/" "train.csv" "test.csv"
                    "sample_submission.csv" VNone in
  let d : gmap string DataFrame :=
    <[KEY_TRAIN_DATA := mkDataFrame ["PassengerId"; "Survived"] [("0", [VInt 1; VInt 0])]]>
      (<[KEY_TEST_DATA := mkDataFrame ["PassengerId"] [("0", [VInt 892])]]>
         (<[KEY_SAMPLE_SUBMISSION_DATA :=
              mkDataFrame ["PassengerId"; "Survived"] [("0", [VInt 892; VInt 0])]]> ∅)) in
  dom d = dom (get_file_path importer) /\
  forall k path, get_file_path importer !! k = Some path ->
    exists df, d !! k = Some df /\
               read_csv path (_index_col importer) = Returned df.
Proof.
  intros read_csv importer d.
  apply (read_follows_file_paths read_csv importer
           ["Data for Modeling: 1 records, 2 features";
            "Unseen Data for Predictions: 1 records, 1 features"] d).
  vm_compute. reflexivity.
Defined.

(** X17: the dict [read] returns always has the three keys the
    estimator asks for: constructing the estimator from it never fails
    on a lookup and goes on to infer the target from the tables parsed
    from the train and test paths. *)
Theorem estimator_from_importer {E : Type}
    (read_csv : string -> value -> outcome E DataFrame)
    (input_dir train_file test_file sample_submission_file : string)
    (index_col : value) (lines : list string) (d : gmap string DataFrame)
    (md : PycaretModule) (created metrics_name metrics_display_name : string) :
  read read_csv
       (DataImporter__init__ input_dir train_file test_file
          sample_submission_file index_col) = (lines, Returned d) ->
  exists train test sample,
    read_csv (input_dir +:+ train_file) index_col = Returned train /\
    read_csv (input_dir +:+ test_file) index_col = Returned test /\
    read_csv (input_dir +:+ sample_submission_file) index_col = Returned sample /\
    PycaretEstimator__init__ md d created metrics_name metrics_display_name =
      match first (elements (column_difference train test)) with
      | Raise e => Raise e
      | Ok tgt =>
          match setup md train tgt with
          | Raise e => Raise e
          | Ok _ =>
              Ok (mkPycaretEstimator md train test sample created metrics_name
                    metrics_display_name tgt)
          end
      end.
Proof.
  intros H. apply read_returned in H as (dtr & dte & dsa & Htr & Hte & Hsa & ->).
  simpl in Htr, Hte, Hsa. exists dtr, dte, dsa.
  split; [exact Htr|]. split; [exact Hte|]. split; [exact Hsa|].
  destruct keys_distinct as (H1 & H2 & H3).
  unfold PycaretEstimator__init__, item.
  rewrite lookup_insert_eq.
  rewrite (lookup_insert_ne _ KEY_TRAIN_DATA KEY_TEST_DATA) by assumption.
  rewrite lookup_insert_eq.
  rewrite (lookup_insert_ne _ KEY_TRAIN_DATA KEY_SAMPLE_SUBMISSION_DATA) by assumption.
  rewrite (lookup_insert_ne _ KEY_TEST_DATA KEY_SAMPLE_SUBMISSION_DATA) by assumption.
  rewrite lookup_insert_eq. reflexivity.
Qed.

Lemma estimator_from_importer_witness :
  let read_csv : string -> value -> outcome string DataFrame :=
    fun path _ =>
      if String.eqb path "./input/train.csv"
      then Returned (mkDataFrame ["PassengerId"; "Survived"] [("0", [VInt 1; VInt 0])])
      else if String.eqb path "./input/test.csv"
      then Returned (mkDataFrame ["PassengerId"] [("0", [VInt 892])])
      else if String.eqb path "./input/sample_submission.csv"
      then Returned (mkDataFrame ["PassengerId"; "Survived"] [("0", [VInt 892; VInt 0])])
      else Failed "FileNotFoundError" in
  let d : gmap string DataFrame :=
    <[KEY_TRAIN_DATA := mkDataFrame ["PassengerId"; "Survived"] [("0", [VInt 1; VInt 0])]]>
      (<[KEY_TEST_DATA := mkDataFrame ["PassengerId"] [("0", [VInt 892])]]>
         (<[KEY_SAMPLE_SUBMISSION_DATA :=
              mkDataFrame ["PassengerId"; "Survived"] [("0", [VInt 892; VInt 0])]]> ∅)) in
  let md := mkPycaretModule (fun _ _ => Ok tt) in
  exists train test sample,
    read_csv ("./input/" +:+ "train.csv") VNone = Returned train /\
    read_csv ("./input/" +:+ "test.csv") VNone = Returned test /\
    read_csv ("./input/" +:+ "sample_submission.csv") VNone = Returned sample /\
    PycaretEstimator__init__ md d "Label" "Name" "Display Name" =
      match first (elements (column_difference train test)) with
      | Raise e => Raise e
      | Ok tgt =>
          match setup md train tgt with
          | Raise e => Raise e
          | Ok _ =>
              Ok (mkPycaretEstimator md train test sample "Label" "Name"
                    "Display Name" tgt)
          end
      end.
Proof.
  intros read_csv d md.
  apply (estimator_from_importer read_csv "./input/" "train.csv" "test.csv"
           "sample_submission.csv" VNone
           ["Data for Modeling: 1 records, 2 features";
            "Unseen Data for Predictions: 1 records, 1 features"] d md).
  vm_compute. reflexivity.
Defined.

(** ** Rendering after logging *)




(** ** The shape of the grid *)

(** X19: for positive ints the planner lays the plots out in a single
    row exactly when they do not exceed [max_ncols], and in two rows or
    more exactly when they do. *)
Theorem calc_single_row (a b : value) (n m nrows ncols : Z) (w : World) :
  as_int a = Some n -> as_int b = Some m ->
  _calc_nrows_ncols a b w = (Ok (nrows, ncols), w) ->
  (nrows = 1 <-> n <= m) /\ (2 <= nrows <-> m < n).
Proof.
  intros Ha Hb Hplan.
  apply calc_ok_inv in Hplan
    as (n' & m' & Ha' & Hb' & Hn & Hm & _ & Hmin & Hr & Hc & Hceil).
  assert (n' = n) by congruence. assert (m' = m) by congruence. subst n' m'.
  assert (Hone : nrows = 1 <-> n <= m).
  { split.
    - intros ->. lia.
    - intros Hle. assert (ncols = n) by lia. subst ncols. nia. }
  split; [exact Hone|]. split.
  - intros H2. destruct (Z_le_gt_dec n m) as [Hle|Hgt]; [|lia].
    apply Hone in Hle. lia.
  - intros Hlt. destruct (Z.eq_dec nrows 1) as [E|N]; [|lia].
    apply Hone in E. lia.
Qed.

Lemma calc_single_row_witness :
  (2 = 1 <-> 5 <= 3) /\ (2 <= 2 <-> 3 < 5).
Proof.
  apply (calc_single_row (VInt 5) (VInt 3) 5 3 2 3 (mkWorld DataLogger__init__ []));
    reflexivity.
Defined.

(** ** Writing the same name twice *)

Lemma set_row_twice name v1 v2 (l : list (string * list value)) :
  map (set_row name v2) (map (set_row name v1) l) = map (set_row name v2) l.
Proof.
  rewrite map_map. apply map_ext. intros [n r]. unfold set_row. simpl.
  destruct (String.eqb name n) eqn:E; simpl; now rewrite E.
Qed.

(** Writing [name] again after a write of [name] gives what the second
    write alone would have given. *)
Lemma loc_setitem_twice d name m1 m2 d1 :
  loc_setitem d name m1 = Ok d1 ->
  loc_setitem d1 name m2 = loc_setitem d name m2.
Proof.
  intros Hs. pose proof (loc_setitem_row _ _ _ _ Hs) as [Hin _].
  apply has_label_elem in Hin.
  revert Hs. unfold loc_setitem at 1 3. destruct (has_label d name) eqn:Hl.
  - intros E. inversion E; subst; clear E.
    unfold loc_setitem. rewrite Hin. simpl. now rewrite set_row_twice.
  - destruct (columns d) as [|c cols] eqn:Hc; [discriminate|].
    intros E. inversion E; subst; clear E.
    unfold loc_setitem. rewrite Hin. simpl.
    rewrite map_app, set_row_other.
    + simpl. unfold set_row. simpl. now rewrite String.eqb_refl.
    + intros Hmem. apply has_label_elem in Hmem. congruence.
Qed.

(** X20: [add] is idempotent: repeating a call with the same arguments
    has the outcome of the first call and leaves the logger as the first
    call left it. *)
Theorem add_idempotent (metrics : dict) (name : string) (w : World) :
  add metrics name (snd (add metrics name w)) = add metrics name w.
Proof.
  destruct w as [lg bk]. rewrite (add_unfold metrics name lg bk). simpl.
  destruct (loc_setitem _ name metrics) as [d1|e] eqn:Hs; simpl.
  - rewrite add_unfold. simpl.
    rewrite (loc_setitem_twice _ name metrics metrics d1 Hs), Hs. reflexivity.
  - rewrite add_unfold. simpl. rewrite Hs. reflexivity.
Qed.



Example first_write_fixes_columns :
  let w := mkWorld DataLogger__init__ [] in
  entries (self (snd (add [("F1", VInt 1)] "modelA"
                          (snd (add [("Accuracy", VInt 2)] "modelA" w))))) =
    [("modelA", [VNaN])] /\
  entries (self (snd (add [("F1", VInt 1)] "modelA" w))) = [("modelA", [VInt 1])].
Proof. split; reflexivity. Qed.
